(** * Vehicle-Rental: booking reservation and pricing engine

    A shallow embedding of the booking core of the Vehicle-Rental backend
    (controllers/bookingController.js, controllers/paymentController.js,
    models/Booking.js, models/Vehicle.js, models/PromoCode.js) and the
    properties of its specification.

    Conventions of the embedding.
    - A JavaScript [Date] is its number of milliseconds since the epoch, a
      [Z]; only valid dates are modelled.
    - A JavaScript [Number] holding money or a percentage is a rational [Q]
      and its arithmetic is exact; equalities between amounts are stated
      with [==].  Numbers that the code makes integral with [Math.ceil]
      (hours, days) are [Z].  The engine computes on IEEE-754 doubles, so
      an amount of the embedding is the engine's up to the rounding of its
      operations; where that rounding decides a result, as it does for the
      sign of [totalPayable], the price computation is given on doubles
      ([Double], [CalculateBookingPrice64]).
    - A string is a sequence of 8-bit characters; [toUpperCase],
      [toLowerCase] and [trim] are the JavaScript functions on strings of
      ASCII characters ([ascii_only]).
    - A Mongo ObjectId is the string that [toString()] yields.
    - A collection is the list of its documents in insertion order.
    - [new Date()] is the parameter [now] of a handler.
    - A handler is a function from the database and the request to the new
      database and the response it sends; the store itself never fails. *)

From Stdlib Require Import ZArith QArith Qround List String Ascii Bool Lia Lqa.
From Stdlib Require Import Qminmax Qabs Decimal DecimalString DecimalZ.
From Stdlib Require Import SpecFloat.
Import ListNotations.

Local Open Scope string_scope.
Local Open Scope Z_scope.

(** ** JavaScript primitives used by the controllers *)

Definition Id := string.
Definition Date := Z.

(** [Math.ceil] of a quotient of two integral Numbers. *)
Definition Math_ceil (q : Q) : Z := Qceiling q.

(** [Math.round]: the nearest integer, halves rounded towards +infinity. *)
Definition Math_round (q : Q) : Q := inject_Z (Qfloor (q + (1 # 2))%Q).

(** [x < y] on Numbers. *)
Definition Qltb (x y : Q) : bool := negb (Qle_bool y x).

(** [String.prototype.toUpperCase] on the ASCII letters. *)
Definition upper_ascii (c : ascii) : ascii :=
  let n := nat_of_ascii c in
  if (andb (Nat.leb 97 n) (Nat.leb n 122)) then ascii_of_nat (n - 32) else c.

Fixpoint toUpperCase (s : string) : string :=
  match s with
  | EmptyString => EmptyString
  | String c r => String (upper_ascii c) (toUpperCase r)
  end.

(** [String.prototype.toLowerCase] on the ASCII letters. *)
Definition lower_ascii (c : ascii) : ascii :=
  let n := nat_of_ascii c in
  if (andb (Nat.leb 65 n) (Nat.leb n 90)) then ascii_of_nat (n + 32) else c.

Fixpoint toLowerCase (s : string) : string :=
  match s with
  | EmptyString => EmptyString
  | String c r => String (lower_ascii c) (toLowerCase r)
  end.

(** The white space and line terminators of [String.prototype.trim] among
    the ASCII characters: tab, line feed, vertical tab, form feed, carriage
    return and space. *)
Definition is_white_space (c : ascii) : bool :=
  let n := nat_of_ascii c in
  (Nat.leb 9 n && Nat.leb n 13) || Nat.eqb n 32.

Fixpoint trimStart (s : string) : string :=
  match s with
  | EmptyString => EmptyString
  | String c r => if is_white_space c then trimStart r else s
  end.

Fixpoint trimEnd (s : string) : string :=
  match s with
  | EmptyString => EmptyString
  | String c r =>
      match trimEnd r with
      | EmptyString => if is_white_space c then EmptyString
                       else String c EmptyString
      | r' => String c r'
      end
  end.

(** [String.prototype.trim] *)
Definition trim (s : string) : string := trimEnd (trimStart s).

(** The strings of ASCII characters.  On these [toUpperCase],
    [toLowerCase] and [trim] above are the JavaScript functions; a
    character outside ASCII may have a case mapping or be white space that
    they do not know. *)
Definition ascii_only (s : string) : bool :=
  forallb (fun c => Nat.ltb (nat_of_ascii c) 128) (list_ascii_of_string s).

(** ** IEEE-754 doubles *)

Module Double.
(** A double is a [spec_float] of the binary64 format (53 bits of
    precision, exponents below 1024); the four operations round to the
    nearest double, ties to even. *)
Definition t := spec_float.
Definition prec : Z := 53.
Definition emax : Z := 1024.
Definition add : t -> t -> t := SFadd prec emax.
Definition sub : t -> t -> t := SFsub prec emax.
Definition mul : t -> t -> t := SFmul prec emax.
Definition div : t -> t -> t := SFdiv prec emax.

(** [x < y] and [x <= y]; both are false when an operand is NaN. *)
Definition ltb : t -> t -> bool := SFltb.
Definition leb : t -> t -> bool := SFleb.

(** The double of an integer literal or of the time value of a [Date]:
    exact up to 2^53. *)
Definition of_Z (z : Z) : t := binary_normalize prec emax z 0 false.

Definition zero : t := S754_zero false.

(** The literal [0.18]: the double nearest to 18/100. *)
Definition lit_0_18 : t := S754_finite false 6485183463413514 (-55).

(** The number that a finite double with sign [s], mantissa [m] and
    exponent [e] stands for. *)
Definition value (s : bool) (m : positive) (e : Z) : Q :=
  (inject_Z (cond_Zopp s (Z.pos m)) * 2 ^ e)%Q.

(** The truthiness of a Number: zero and NaN are falsy. *)
Definition truthy (x : t) : bool :=
  match x with
  | S754_zero _ | S754_nan => false
  | _ => true
  end.

(** [Math.ceil]: a double with no fractional part is returned as it is;
    a result of zero keeps the sign of the argument. *)
Definition Math_ceil (x : t) : t :=
  match x with
  | S754_finite s m e =>
      if 0 <=? e then x
      else
        let k := Qceiling (value s m e) in
        if k =? 0 then S754_zero s else of_Z k
  | _ => x
  end.

(** [x % 24]: the remainder of the truncated division, exact, with the
    sign of [x]. *)
Definition mod_24 (x : t) : t :=
  match x with
  | S754_finite s m e =>
      let n := cond_Zopp s (Z.pos m) in
      let r := if 0 <=? e then Z.rem (n * 2 ^ e) 24
               else Z.rem n (24 * 2 ^ (- e)) in
      if r =? 0 then S754_zero s
      else binary_normalize prec emax r (Z.min e 0) false
  | S754_zero _ => x
  | _ => S754_nan
  end.

(** [Math.round] as the response carries it.  The result is the integer
    nearest to the argument, a half going up; [JSON.stringify] writes it
    as that integer (and [-0] as [0]), and writes [null], here [None],
    for NaN and the infinities. *)
Definition Math_round (x : t) : option Z :=
  match x with
  | S754_zero _ => Some 0
  | S754_finite s m e => Some (Qfloor (value s m e + (1 # 2))%Q)
  | _ => None
  end.
End Double.

(** ** Data model (the Mongoose schemas) *)

Module Status.
(** [bookingSchema.status.enum] *)
Inductive t :=
| pending_payment | confirmed | checked_out | in_progress | completed
| cancelled | no_show | driver_unavailable | refunded.

Definition eqb (a b : t) : bool :=
  match a, b with
  | pending_payment, pending_payment | confirmed, confirmed
  | checked_out, checked_out | in_progress, in_progress
  | completed, completed | cancelled, cancelled | no_show, no_show
  | driver_unavailable, driver_unavailable | refunded, refunded => true
  | _, _ => false
  end.

Definition to_string (s : t) : string :=
  match s with
  | pending_payment => "pending_payment" | confirmed => "confirmed"
  | checked_out => "checked_out" | in_progress => "in_progress"
  | completed => "completed" | cancelled => "cancelled"
  | no_show => "no_show" | driver_unavailable => "driver_unavailable"
  | refunded => "refunded"
  end.

Definition all : list t :=
  [pending_payment; confirmed; checked_out; in_progress; completed;
   cancelled; no_show; driver_unavailable; refunded].

(** Casting a request string to the enum; [None] is the value Mongoose's
    enum validator rejects on [save]. *)
Definition of_string (s : string) : option t :=
  find (fun x => String.eqb (to_string x) s) all.

(** [array.includes(status)] *)
Definition includes (l : list t) (s : t) : bool := existsb (eqb s) l.

(** The terminal states of the specification's glossary. *)
Definition terminal (s : t) : bool :=
  includes [cancelled; completed; refunded; no_show; driver_unavailable] s.
End Status.

Module Role.
Inductive t := customer | vendor | admin.
Definition eqb (a b : t) : bool :=
  match a, b with
  | customer, customer | vendor, vendor | admin, admin => true
  | _, _ => false
  end.
End Role.

Module Pricing.
(** [pricingSchema]; the four fields with [default: 0] carry their
    default when the vendor left them out. *)
Record t := mk {
  baseDaily : Q;
  baseHourly : option Q;
  weeklyDiscountPercent : Q;
  monthlyDiscountPercent : Q;
  extraHourCharge : Q;
  depositAmount : Q
}.
End Pricing.

Module AvailabilityBlock.
Record t := mk { start : Date; end_ : Date; reason : string }.
End AvailabilityBlock.

Module Vehicle.
Record t := mk {
  _id : Id;
  vendor : Id;
  title : string;
  pricing : option Pricing.t;   (* not [required] in the schema *)
  availabilityBlocks : list AvailabilityBlock.t;
  isActive : bool
}.
End Vehicle.

Module PromoCode.
Inductive DiscountType := percentage | flat.
Record t := mk {
  _id : Id;
  code : string;
  discountType : DiscountType;
  discountValue : Q;
  minBookingAmount : option Q;
  maxDiscountAmount : option Q;
  validFrom : Date;
  validTill : Date;
  isActive : bool
}.
End PromoCode.

Module PriceBreakdown.
Record t := mk {
  baseAmount : Q;
  driverAmount : Q;
  taxes : Q;
  discount : Q;
  deposit : Q;
  totalPayable : Q
}.
End PriceBreakdown.

Module Duration.
Record t := mk { days : Z; hours : Z }.
End Duration.

Module Cancellation.
Record t := mk {
  cancelledBy : Role.t;
  cancelledAt : Date;
  cancellationFee : option Q;
  reason : option string
}.
End Cancellation.

Module Penalties.
Record t := mk {
  lateFee : option Q;
  damageDeduction : option Q;
  notes : option string
}.
Definition empty : t := mk None None None.
End Penalties.

Module DepositRefund.
Inductive RefundStatus := pending | initiated | completed | rejected.
Record t := mk { status : RefundStatus; amount : option Q }.
End DepositRefund.

Module Booking.
Record t := mk {
  _id : Id;
  bookingRef : string;
  customer : Id;
  vendor : Id;
  vehicle : Id;
  driver : option Id;
  pickup_datetime : Date;
  dropoff_datetime : Date;
  bookingType : string;
  duration : Duration.t;
  priceBreakdown : PriceBreakdown.t;
  payment : option Id;
  promoCode : option Id;
  status : Status.t;
  cancellation : option Cancellation.t;
  penalties : option Penalties.t;
  depositRefund : option DepositRefund.t;
  notes : option string
}.

Definition set_status (s : Status.t) (b : t) : t :=
  mk (_id b) (bookingRef b) (customer b) (vendor b) (vehicle b) (driver b)
     (pickup_datetime b) (dropoff_datetime b) (bookingType b) (duration b)
     (priceBreakdown b) (payment b) (promoCode b) s (cancellation b)
     (penalties b) (depositRefund b) (notes b).

Definition set_cancellation (c : Cancellation.t) (b : t) : t :=
  mk (_id b) (bookingRef b) (customer b) (vendor b) (vehicle b) (driver b)
     (pickup_datetime b) (dropoff_datetime b) (bookingType b) (duration b)
     (priceBreakdown b) (payment b) (promoCode b) (status b) (Some c)
     (penalties b) (depositRefund b) (notes b).

Definition set_depositRefund (d : DepositRefund.t) (b : t) : t :=
  mk (_id b) (bookingRef b) (customer b) (vendor b) (vehicle b) (driver b)
     (pickup_datetime b) (dropoff_datetime b) (bookingType b) (duration b)
     (priceBreakdown b) (payment b) (promoCode b) (status b) (cancellation b)
     (penalties b) (Some d) (notes b).

Definition set_penalties (p : Penalties.t) (n : option string) (b : t) : t :=
  mk (_id b) (bookingRef b) (customer b) (vendor b) (vehicle b) (driver b)
     (pickup_datetime b) (dropoff_datetime b) (bookingType b) (duration b)
     (priceBreakdown b) (payment b) (promoCode b) (status b) (cancellation b)
     (Some p) (depositRefund b) n.
End Booking.

Module VendorProfile.
(** The fields of the Vendor document the booking handlers read. *)
Record t := mk { _id : Id; user : Id }.
End VendorProfile.

Module Notification.
Record t := mk {
  toUser : option Id;
  toVendor : option Id;
  type : string;
  bookingId : Id
}.
End Notification.

Module Transaction.
Record t := mk {
  type : string;
  relatedBooking : Id;
  vendor : Id;
  amount : Q
}.
End Transaction.

Module User.
(** [req.user], as the authentication middleware supplies it. *)
Record t := mk { _id : Id; role : Role.t }.
End User.

(** The document store. *)
Module Db.
Record t := mk {
  vehicles : list Vehicle.t;
  vendors : list VendorProfile.t;
  promoCodes : list PromoCode.t;
  bookings : list Booking.t;
  notifications : list Notification.t;
  transactions : list Transaction.t
}.

Definition set_bookings (bs : list Booking.t) (db : t) : t :=
  mk (vehicles db) (vendors db) (promoCodes db) bs (notifications db)
     (transactions db).

Definition add_notification (n : Notification.t) (db : t) : t :=
  mk (vehicles db) (vendors db) (promoCodes db) (bookings db)
     (notifications db ++ [n]) (transactions db).

Definition add_transaction (x : Transaction.t) (db : t) : t :=
  mk (vehicles db) (vendors db) (promoCodes db) (bookings db)
     (notifications db) (transactions db ++ [x]).
End Db.

(** [Model.findById] on each collection. *)
Definition Vehicle_findById (db : Db.t) (id : Id) : option Vehicle.t :=
  find (fun v => String.eqb (Vehicle._id v) id) (Db.vehicles db).

Definition Booking_findById (db : Db.t) (id : Id) : option Booking.t :=
  find (fun b => String.eqb (Booking._id b) id) (Db.bookings db).

(** The vendor document that [populate('vendor')] resolves. *)
Definition Vendor_findById (db : Db.t) (id : Id) : option VendorProfile.t :=
  find (fun v => String.eqb (VendorProfile._id v) id) (Db.vendors db).

(** [Vendor.findOne({ user })] *)
Definition Vendor_findOne_user (db : Db.t) (u : Id) : option VendorProfile.t :=
  find (fun v => String.eqb (VendorProfile.user v) u) (Db.vendors db).

(** The setters of [promoSchema.code] ([uppercase: true, trim: true]).
    Mongoose runs them on the value that is stored and, when it casts a
    query filter, on the value that is looked for; the two commute. *)
Definition PromoCode_code_setters (code : string) : string :=
  trim (toUpperCase code).

(** [PromoCode.findOne({ code, isActive: true, validFrom: {$lte: now},
    validTill: {$gte: now} })]: the filter is cast with the schema, so the
    stored codes are compared with the [code] of the filter after its
    setters. *)
Definition PromoCode_findOne (db : Db.t) (code : string) (now : Date)
  : option PromoCode.t :=
  find (fun p => String.eqb (PromoCode.code p) (PromoCode_code_setters code)
                 && PromoCode.isActive p
                 && (PromoCode.validFrom p <=? now)
                 && (now <=? PromoCode.validTill p))
       (Db.promoCodes db).

(** [doc.save()] of a document that was read from the collection: the
    stored document with the same [_id] is replaced. *)
Definition Booking_save (b : Booking.t) (db : Db.t) : Db.t :=
  Db.set_bookings
    (map (fun x => if String.eqb (Booking._id x) (Booking._id b) then b else x)
         (Db.bookings db))
    db.

(** [doc.save()] of a document made with [new Booking(...)]: an insert. *)
Definition Booking_insert (b : Booking.t) (db : Db.t) : Db.t :=
  Db.set_bookings (Db.bookings db ++ [b]) db.

(** The unique indexes of the collection, on [_id] and on [bookingRef]:
    an insert that repeats either key fails with a duplicate-key error. *)
Definition duplicate_key (b : Booking.t) (db : Db.t) : bool :=
  existsb (fun x => String.eqb (Booking._id x) (Booking._id b)
                    || String.eqb (Booking.bookingRef x) (Booking.bookingRef b))
          (Db.bookings db).

(** ** Responses *)

Inductive Payload :=
| NoData
| PriceData (priceBreakdown : PriceBreakdown.t) (duration : Duration.t)
            (promoCode : option PromoCode.t)
| AvailabilityData (available : bool)
| CreatedData (booking : Booking.t) (paymentRequired : bool)
| BookingData (booking : Booking.t)
| CancelData (booking : Booking.t) (cancellationFee refundAmount : Q)
| CompleteData (booking : Booking.t) (finalAmount : Q).

Module Response.
Record t := mk {
  statusCode : Z;
  success : bool;
  message : string;
  data : Payload
}.
(** [res.status(c).json({ success: false, message })] *)
Definition failure (c : Z) (m : string) : t := mk c false m NoData.
End Response.

(** The values a caller can get back from awaiting a handler: [undefined]
    (the handler ran to its end), the response object (the handler left
    through [return res.status(..).json(..)]), or an object with a
    [success] flag and a [data.priceBreakdown], which is what
    [createBooking] reads from its [priceResponse]. *)
Inductive JsValue :=
| Undefined
| ResObject
| Obj (success : bool)
      (data : option (PriceBreakdown.t * Duration.t * option PromoCode.t)).

(** How the promise of an [async (req, res)] handler settles: it resolves
    after sending a response through [res], or it rejects with an error. *)
Inductive Completion :=
| Resolved (sent : Response.t) (value : JsValue)
| Rejected (error_message : string).

(** [res.status(...)] / [res.json(...)] when [res] may be [undefined]
    ([has_res = false]): the property access on [undefined] throws. *)
Definition TypeError_res : string :=
  "Cannot read properties of undefined (reading 'status')".

Definition respond (has_res : bool) (r : Response.t) (value : JsValue)
  : Completion :=
  if has_res then Resolved r value else Rejected TypeError_res.

(** A JavaScript truthiness test of an optional string. *)
Definition truthy (s : option string) : bool :=
  match s with
  | Some EmptyString | None => false
  | Some _ => true
  end.

(** ** Pricing calculator: the body of [calculateBookingPrice] *)

Module CalculateBookingPrice.
Local Open Scope Q_scope.
Section Body.
Variable pricing : Pricing.t.
Variables pickup dropoff : Date.
Variable bookingType : string.
Variable driverRequired : bool.
Variable promoCodeDetails : option PromoCode.t.

Definition durationMs : Z := (dropoff - pickup)%Z.
Definition durationHours : Z := Math_ceil (durationMs # 3600000).
Definition durationDays : Z := Math_ceil (durationHours # 24).

(** The tier chosen by the [if / else if / else]. *)
Definition tierAmount : Q :=
  if (30 <=? durationDays)%Z && Qltb 0 (Pricing.monthlyDiscountPercent pricing)
  then
    let monthlyRate := Pricing.baseDaily pricing * 30 in
    let discount := monthlyRate * (Pricing.monthlyDiscountPercent pricing / 100) in
    monthlyRate - discount
  else if (7 <=? durationDays)%Z && Qltb 0 (Pricing.weeklyDiscountPercent pricing)
  then
    let weeklyRate := Pricing.baseDaily pricing * 7 in
    let discount := weeklyRate * (Pricing.weeklyDiscountPercent pricing / 100) in
    weeklyRate - discount
  else Pricing.baseDaily pricing * inject_Z durationDays.

(** [baseAmount] after the hourly charges were added; [%] is the
    remainder whose sign is the dividend's. *)
Definition baseAmount : Q :=
  if (0 <? Z.rem durationHours 24)%Z && Qltb 0 (Pricing.extraHourCharge pricing)
  then tierAmount
       + Pricing.extraHourCharge pricing * inject_Z (Z.rem durationHours 24)
  else tierAmount.

Definition driverAmount : Q :=
  if String.eqb bookingType "with-driver" || driverRequired
  then 100 * inject_Z durationHours
  else 0.

Definition taxes : Q := (baseAmount + driverAmount) * (18 # 100).

(** [vehicle.pricing.depositAmount || 0] *)
Definition depositAmount : Q :=
  if Qeq_bool (Pricing.depositAmount pricing) 0 then 0
  else Pricing.depositAmount pricing.

Definition discount : Q :=
  match promoCodeDetails with
  | None => 0
  | Some pc =>
      match PromoCode.discountType pc with
      | PromoCode.percentage =>
          let d := baseAmount * (PromoCode.discountValue pc / 100) in
          match PromoCode.maxDiscountAmount pc with
          | Some m => if negb (Qeq_bool m 0) && Qltb m d then m else d
          | None => d
          end
      | PromoCode.flat => PromoCode.discountValue pc
      end
  end.

(** The sum in exact arithmetic; [CalculateBookingPrice64.totalPayable]
    is the sum as the engine rounds it. *)
Definition totalPayable : Q :=
  baseAmount + driverAmount + taxes + depositAmount - discount.

Definition priceBreakdown : PriceBreakdown.t :=
  PriceBreakdown.mk baseAmount driverAmount (Math_round taxes)
                    (Math_round discount) depositAmount
                    (Math_round totalPayable).

Definition duration : Duration.t := Duration.mk durationDays durationHours.
End Body.
End CalculateBookingPrice.

(** ** The pricing calculator on doubles

    The same body with every Number an IEEE-754 double and every operation
    rounded as the engine rounds it, for the properties that the last bit
    of a sum decides.  [pickup] and [dropoff] are the time values of the
    two dates. *)

Module Pricing64.
(** [pricingSchema] *)
Record t := mk {
  baseDaily : Double.t;
  baseHourly : option Double.t;
  weeklyDiscountPercent : Double.t;
  monthlyDiscountPercent : Double.t;
  extraHourCharge : Double.t;
  depositAmount : Double.t
}.
End Pricing64.

Module PromoCode64.
(** The fields of a promotion that the price computation reads.  A Number
    that a document lacks acts on this arithmetic as NaN does. *)
Record t := mk {
  discountType : PromoCode.DiscountType;
  discountValue : Double.t;
  maxDiscountAmount : option Double.t
}.
End PromoCode64.

Module PriceBreakdown64.
(** [priceBreakdown] of the response; the three fields that went through
    [Math.round] are given as the response carries them. *)
Record t := mk {
  baseAmount : Double.t;
  driverAmount : Double.t;
  taxes : option Z;
  discount : option Z;
  deposit : Double.t;
  totalPayable : option Z
}.
End PriceBreakdown64.

Module CalculateBookingPrice64.
Section Body.
Variable pricing : Pricing64.t.
Variables pickup dropoff : Date.
Variable bookingType : string.
Variable driverRequired : bool.
Variable promoCodeDetails : option PromoCode64.t.

Definition durationMs : Double.t :=
  Double.sub (Double.of_Z dropoff) (Double.of_Z pickup).
Definition durationHours : Double.t :=
  Double.Math_ceil (Double.div durationMs (Double.of_Z (1000 * 60 * 60))).
Definition durationDays : Double.t :=
  Double.Math_ceil (Double.div durationHours (Double.of_Z 24)).

Definition tierAmount : Double.t :=
  if Double.leb (Double.of_Z 30) durationDays
     && Double.ltb Double.zero (Pricing64.monthlyDiscountPercent pricing)
  then
    let monthlyRate := Double.mul (Pricing64.baseDaily pricing) (Double.of_Z 30) in
    let discount :=
      Double.mul monthlyRate
        (Double.div (Pricing64.monthlyDiscountPercent pricing)
           (Double.of_Z 100)) in
    Double.sub monthlyRate discount
  else if Double.leb (Double.of_Z 7) durationDays
          && Double.ltb Double.zero (Pricing64.weeklyDiscountPercent pricing)
  then
    let weeklyRate := Double.mul (Pricing64.baseDaily pricing) (Double.of_Z 7) in
    let discount :=
      Double.mul weeklyRate
        (Double.div (Pricing64.weeklyDiscountPercent pricing)
           (Double.of_Z 100)) in
    Double.sub weeklyRate discount
  else Double.mul (Pricing64.baseDaily pricing) durationDays.

Definition baseAmount : Double.t :=
  if Double.ltb Double.zero (Double.mod_24 durationHours)
     && Double.ltb Double.zero (Pricing64.extraHourCharge pricing)
  then Double.add tierAmount
         (Double.mul (Pricing64.extraHourCharge pricing)
            (Double.mod_24 durationHours))
  else tierAmount.

Definition driverAmount : Double.t :=
  if String.eqb bookingType "with-driver" || driverRequired
  then Double.mul (Double.of_Z 100) durationHours
  else Double.zero.

Definition taxes : Double.t :=
  Double.mul (Double.add baseAmount driverAmount) Double.lit_0_18.

Definition depositAmount : Double.t :=
  if Double.truthy (Pricing64.depositAmount pricing)
  then Pricing64.depositAmount pricing
  else Double.zero.

Definition discount : Double.t :=
  match promoCodeDetails with
  | None => Double.zero
  | Some pc =>
      match PromoCode64.discountType pc with
      | PromoCode.percentage =>
          let d := Double.mul baseAmount
                     (Double.div (PromoCode64.discountValue pc)
                        (Double.of_Z 100)) in
          match PromoCode64.maxDiscountAmount pc with
          | Some m => if Double.truthy m && Double.ltb m d then m else d
          | None => d
          end
      | PromoCode.flat => PromoCode64.discountValue pc
      end
  end.

Definition totalPayable : Double.t :=
  Double.sub
    (Double.add (Double.add (Double.add baseAmount driverAmount) taxes)
       depositAmount)
    discount.

Definition priceBreakdown : PriceBreakdown64.t :=
  PriceBreakdown64.mk baseAmount driverAmount (Double.Math_round taxes)
    (Double.Math_round discount) depositAmount
    (Double.Math_round totalPayable).
End Body.
End CalculateBookingPrice64.

Module PriceRequest.
(** [req.body] of [POST /bookings/calculate-price]; [bookingType] and
    [driverRequired] carry their destructuring defaults. *)
Record t := mk {
  vehicleId : option Id;
  pickupDateTime : option Date;
  dropoffDateTime : option Date;
  promoCode : option string;
  bookingType : string;
  driverRequired : bool
}.
End PriceRequest.

(** [calculateBookingPrice(req, res)].  [body] is [req.body] ([None] when
    the request object has no [body] property) and [has_res] tells whether
    a response object was passed. *)
Definition calculateBookingPrice (db : Db.t) (now : Date)
    (body : option PriceRequest.t) (has_res : bool) : Completion :=
  let caught := respond has_res
                  (Response.failure 500 "Failed to calculate booking price")
                  Undefined in
  match body with
  | None => caught      (* destructuring [undefined] throws *)
  | Some b =>
      match PriceRequest.vehicleId b, PriceRequest.pickupDateTime b,
            PriceRequest.dropoffDateTime b with
      | Some vehicleId, Some pickup, Some dropoff =>
          if negb (truthy (Some vehicleId)) then
            respond has_res (Response.failure 400
              "Vehicle ID, pickup date, and dropoff date are required")
              ResObject
          else
          match Vehicle_findById db vehicleId with
          | None => respond has_res (Response.failure 404 "Vehicle not found")
                            ResObject
          | Some vehicle =>
              match Vehicle.pricing vehicle with
              | None => caught  (* [vehicle.pricing.baseDaily] throws *)
              | Some pricing =>
                  let promoCodeDetails :=
                    match PriceRequest.promoCode b with
                    | Some c => if truthy (Some c)
                                then PromoCode_findOne db (toUpperCase c) now
                                else None
                    | None => None
                    end in
                  respond has_res
                    (Response.mk 200 true ""
                       (PriceData
                          (CalculateBookingPrice.priceBreakdown pricing pickup
                             dropoff (PriceRequest.bookingType b)
                             (PriceRequest.driverRequired b) promoCodeDetails)
                          (CalculateBookingPrice.duration pickup dropoff)
                          promoCodeDetails))
                    Undefined
              end
          end
      | _, _, _ =>
          respond has_res (Response.failure 400
            "Vehicle ID, pickup date, and dropoff date are required")
            ResObject
      end
  end.

(** ** Availability oracle *)

(** [bookingSchema.statics.isVehicleAvailable]: no stored booking of the
    vehicle with a status in the [$in] list has
    [pickup.datetime < end] and [dropoff.datetime > start]. *)
Definition blockingStatuses : list Status.t :=
  [Status.confirmed; Status.checked_out; Status.in_progress].

Definition isVehicleAvailable (db : Db.t) (vehicleId : Id) (start end_ : Date)
  : bool :=
  negb (existsb
          (fun b => String.eqb (Booking.vehicle b) vehicleId
                    && Status.includes blockingStatuses (Booking.status b)
                    && ((Booking.pickup_datetime b <? end_)
                        && (start <? Booking.dropoff_datetime b)))
          (Db.bookings db)).

(** [vehicle.availabilityBlocks.some(block => block.start <= dropoff &&
    block.end >= pickup)] *)
Definition hasAvailabilityBlock (vehicle : Vehicle.t) (pickup dropoff : Date)
  : bool :=
  existsb (fun block => (AvailabilityBlock.start block <=? dropoff)
                        && (pickup <=? AvailabilityBlock.end_ block))
          (Vehicle.availabilityBlocks vehicle).

Module AvailabilityRequest.
Record t := mk {
  vehicleId : option Id;
  pickupDateTime : option Date;
  dropoffDateTime : option Date
}.
End AvailabilityRequest.

(** [getBookingAvailability(req, res)] *)
Definition getBookingAvailability (db : Db.t) (body : AvailabilityRequest.t)
  : Response.t :=
  match AvailabilityRequest.vehicleId body,
        AvailabilityRequest.pickupDateTime body,
        AvailabilityRequest.dropoffDateTime body with
  | Some vehicleId, Some pickup, Some dropoff =>
      if negb (truthy (Some vehicleId)) then
        Response.failure 400
          "Vehicle ID, pickup date, and dropoff date are required"
      else
      match Vehicle_findById db vehicleId with
      | None => Response.failure 404 "Vehicle not found"
      | Some vehicle =>
          let isAvailable := isVehicleAvailable db vehicleId pickup dropoff in
          let available :=
            isAvailable && negb (hasAvailabilityBlock vehicle pickup dropoff) in
          Response.mk 200 true
            (if available then "Vehicle is available for the selected dates"
             else "Vehicle is not available for the selected dates")
            (AvailabilityData available)
      end
  | _, _, _ =>
      Response.failure 400
        "Vehicle ID, pickup date, and dropoff date are required"
  end.

(** ** Booking orchestrator: [createBooking] *)

Module Env.
(** What a handler takes from its surroundings: the clock, and for
    [createBooking] the ObjectId Mongoose gives the new document and the
    reference built from [Date.now()] and [Math.random()]. *)
Record t := mk { now : Date; newId : Id; bookingRef : string }.
End Env.

Module CreateRequest.
(** [req.body] of [POST /bookings]; [pickup] and [dropoff] are
    [pickup.datetime] and [dropoff.datetime], [None] when the object or
    its [datetime] is missing. *)
Record t := mk {
  vehicleId : option Id;
  pickup : option Date;
  dropoff : option Date;
  bookingType : option string;
  driverId : option Id;
  promoCode : option string;
  notes : option string
}.
End CreateRequest.

(** The enum validator of [bookingSchema.bookingType]. *)
Definition valid_bookingType (s : string) : bool :=
  String.eqb s "self-drive" || String.eqb s "with-driver".

(** [bookingType || 'self-drive'] *)
Definition bookingType_or_default (bookingType : option string) : string :=
  match bookingType with
  | Some EmptyString | None => "self-drive"
  | Some s => s
  end.

(** [createBooking] from the test of [priceResponse.success] to the end:
    build the document, [booking.save()], notify the vendor, answer 201.
    The save validates the document ([bookingType] is the one field a
    request can make invalid) and inserts it under the unique indexes.
    [vehicle] is the document found for [vehicleId], so its [_id] is the
    [vehicleId] the source stores. *)
Definition createBooking_commit (db : Db.t) (env : Env.t) (user : User.t)
    (body : CreateRequest.t) (vehicle : Vehicle.t)
    (pickupDateTime dropoffDateTime : Date) (priceResponse : JsValue)
  : Db.t * Response.t :=
  match priceResponse with
  | Undefined =>
      (db, Response.failure 500
             "Cannot read properties of undefined (reading 'success')")
  | ResObject | Obj false _ =>
      (* [res.status(400).json(priceResponse)] *)
      (db, Response.mk 400 false "" NoData)
  | Obj true None =>
      (db, Response.failure 500
             "Cannot destructure property 'priceBreakdown' of 'priceResponse.data' as it is undefined.")
  | Obj true (Some (priceBreakdown, duration, promoCodeDetails)) =>
      match Vendor_findById db (Vehicle.vendor vehicle) with
      | None =>
          (db, Response.failure 500
                 "Cannot read properties of null (reading '_id')")
      | Some vendor =>
          let bookingType :=
            bookingType_or_default (CreateRequest.bookingType body) in
          if negb (valid_bookingType bookingType) then
            (db, Response.failure 500 "Booking validation failed")
          else
            let booking :=
              Booking.mk (Env.newId env) (Env.bookingRef env) (User._id user)
                (VendorProfile._id vendor) (Vehicle._id vehicle)
                (CreateRequest.driverId body) pickupDateTime dropoffDateTime
                bookingType duration priceBreakdown None
                (option_map PromoCode._id promoCodeDetails)
                Status.pending_payment None None
                (Some (DepositRefund.mk DepositRefund.pending None))
                (CreateRequest.notes body) in
            if duplicate_key booking db then
              (db, Response.failure 500 "E11000 duplicate key error")
            else
            let db1 := Booking_insert booking db in
            let db2 := Db.add_notification
                         (Notification.mk None (Some (VendorProfile._id vendor))
                            "new_booking" (Booking._id booking)) db1 in
            (db2, Response.mk 201 true "Booking created successfully"
                    (CreatedData booking true))
      end
  end.

(** [error.message || 'Failed to create booking'] *)
Definition message_or (m fallback : string) : string :=
  match m with EmptyString => fallback | _ => m end.

(** [createBooking(req, res)].  The price is asked for with
    [calculateBookingPrice({ vehicleId, ... })]: one argument, an object
    without [body], and no response object. *)
Definition createBooking (db : Db.t) (env : Env.t) (user : User.t)
    (body : CreateRequest.t) : Db.t * Response.t :=
  match CreateRequest.vehicleId body, CreateRequest.pickup body,
        CreateRequest.dropoff body with
  | Some vehicleId, Some pickupDateTime, Some dropoffDateTime =>
      if negb (truthy (Some vehicleId)) then
        (db, Response.failure 400
               "Vehicle ID, pickup, and dropoff details are required")
      else
      match Vehicle_findById db vehicleId with
      | None => (db, Response.failure 404 "Vehicle not found")
      | Some vehicle =>
          if negb (isVehicleAvailable db vehicleId pickupDateTime
                     dropoffDateTime)
          then (db, Response.failure 400
                      "Vehicle is not available for the selected dates")
          else
            match calculateBookingPrice db (Env.now env) None false with
            | Rejected m =>
                (db, Response.failure 500
                       (message_or m "Failed to create booking"))
            | Resolved _ priceResponse =>
                createBooking_commit db env user body vehicle pickupDateTime
                  dropoffDateTime priceResponse
            end
      end
  | _, _, _ =>
      (db, Response.failure 400
             "Vehicle ID, pickup, and dropoff details are required")
  end.

(** ** Reservation state machine: the status-changing handlers *)

(** The vendor access check shared by the privileged handlers:
    [!vendor || booking.vendor.toString() !== vendor._id.toString()]. *)
Definition vendor_denied (db : Db.t) (user : User.t) (booking : Booking.t)
  : bool :=
  match Vendor_findOne_user db (User._id user) with
  | None => true
  | Some vendor =>
      negb (String.eqb (Booking.vendor booking) (VendorProfile._id vendor))
  end.

(** [updateBookingStatus(req, res)] of bookingController.js
    ([PATCH /bookings/:id/status]). *)
Definition updateBookingStatus (db : Db.t) (env : Env.t) (user : User.t)
    (id : Id) (status : string) (reason : option string)
  : Db.t * Response.t :=
  match Booking_findById db id with
  | None => (db, Response.failure 404 "Booking not found")
  | Some booking =>
      if Role.eqb (User.role user) Role.vendor && vendor_denied db user booking
      then (db, Response.failure 403 "Access denied")
      else
        match Status.of_string status with
        | None =>
            (* [booking.save()] fails the enum validation *)
            (db, Response.failure 500 "Failed to update booking status")
        | Some s =>
            let b1 := Booking.set_status s booking in
            let b2 :=
              if Status.eqb s Status.cancelled then
                Booking.set_cancellation
                  (Cancellation.mk (User.role user) (Env.now env) None reason)
                  b1
              else if Status.eqb s Status.completed then
                if Qltb 0 (PriceBreakdown.deposit (Booking.priceBreakdown b1))
                then Booking.set_depositRefund
                       (DepositRefund.mk DepositRefund.pending
                          (Some (PriceBreakdown.deposit
                                   (Booking.priceBreakdown b1))))
                       b1
                else b1
              else b1 in
            let db1 := Booking_save b2 db in
            let db2 := Db.add_notification
                         (Notification.mk (Some (Booking.customer b2)) None
                            "booking_status_updated" (Booking._id b2)) db1 in
            (db2, Response.mk 200 true "Booking status updated successfully"
                    (BookingData b2))
        end
  end.

Definition cancellableStatuses : list Status.t :=
  [Status.pending_payment; Status.confirmed].

(** [hoursUntilPickup = (pickupTime - now) / (1000 * 60 * 60)] *)
Definition hoursUntilPickup (booking : Booking.t) (now : Date) : Q :=
  (Booking.pickup_datetime booking - now) # 3600000.

(** The fee tiers of [cancelBooking]. *)
Definition cancellationFee (booking : Booking.t) (now : Date) : Q :=
  if Qltb (hoursUntilPickup booking now) 24 then
    (PriceBreakdown.baseAmount (Booking.priceBreakdown booking) * (1 # 2))%Q
  else if Qltb (hoursUntilPickup booking now) 48 then
    (PriceBreakdown.baseAmount (Booking.priceBreakdown booking) * (1 # 4))%Q
  else 0%Q.

(** [cancelBooking(req, res)] ([POST /bookings/:id/cancel]). *)
Definition cancelBooking (db : Db.t) (env : Env.t) (user : User.t)
    (id : Id) (reason : option string) : Db.t * Response.t :=
  match Booking_findById db id with
  | None => (db, Response.failure 404 "Booking not found")
  | Some booking =>
      if Role.eqb (User.role user) Role.customer
         && negb (String.eqb (Booking.customer booking) (User._id user))
      then (db, Response.failure 403 "Access denied")
      else if negb (Status.includes cancellableStatuses (Booking.status booking))
      then (db, Response.failure 400
                  ("Booking cannot be cancelled in "
                   ++ Status.to_string (Booking.status booking) ++ " status"))
      else
        let fee := cancellationFee booking (Env.now env) in
        let b1 := Booking.set_status Status.cancelled booking in
        let b2 := Booking.set_cancellation
                    (Cancellation.mk (User.role user) (Env.now env) (Some fee)
                       reason) b1 in
        let db1 := Booking_save b2 db in
        let db2 := Db.add_notification
                     (Notification.mk None (Some (Booking.vendor b2))
                        "booking_cancelled" (Booking._id b2)) db1 in
        (db2, Response.mk 200 true "Booking cancelled successfully"
                (CancelData b2 fee
                   (PriceBreakdown.totalPayable (Booking.priceBreakdown b2)
                    - fee)%Q))
  end.

(** [x || 0] on an optional Number. *)
Definition or_zero (x : option Q) : Q :=
  match x with
  | Some q => if Qeq_bool q 0 then 0%Q else q
  | None => 0%Q
  end.

(** [completeBooking(req, res)] ([POST /bookings/:id/complete]). *)
Definition completeBooking (db : Db.t) (env : Env.t) (user : User.t)
    (id : Id) (penalties : option Penalties.t) (notes : option string)
  : Db.t * Response.t :=
  match Booking_findById db id with
  | None => (db, Response.failure 404 "Booking not found")
  | Some booking =>
      if vendor_denied db user booking
      then (db, Response.failure 403 "Access denied")
      else if negb (Status.eqb (Booking.status booking) Status.in_progress)
      then (db, Response.failure 400 "Booking must be in progress to complete")
      else
        let b1 := Booking.set_status Status.completed booking in
        let b2 := Booking.set_penalties
                    (match penalties with
                     | Some p => p | None => Penalties.empty end)
                    notes b1 in
        let total := PriceBreakdown.totalPayable (Booking.priceBreakdown b2) in
        let finalAmount :=
          (total
           + or_zero (match penalties with
                      | Some p => Penalties.lateFee p | None => None end)
           + or_zero (match penalties with
                      | Some p => Penalties.damageDeduction p | None => None end))%Q in
        let db1 := Booking_save b2 db in
        let db2 :=
          if negb (Qeq_bool finalAmount total) then
            Db.add_transaction
              (Transaction.mk "adjustment" (Booking._id b2) (Booking.vendor b2)
                 (finalAmount - total)%Q) db1
          else db1 in
        (db2, Response.mk 200 true "Booking completed successfully"
                (CompleteData b2 finalAmount))
  end.

Module Payment.
Inductive PaymentStatus := initiated | success | failed | refunded.
(** The fields of the Payment document that [verifyPayment] uses once the
    gateway has answered. *)
Record t := mk {
  _id : Id;
  booking : Id;
  user : Id;
  vendor : Id;
  amount : Q;
  status : PaymentStatus
}.
End Payment.

(** [verifyPayment], the block under "Update booking status": what the
    handler does to the booking once [payment.status] has been set from the
    gateway's answer ([captured] gives [success], anything else
    [failed]). *)
Definition verifyPayment_updateBooking (db : Db.t) (payment : Payment.t)
  : Db.t :=
  match Payment.status payment with
  | Payment.success =>
      match Booking_findById db (Payment.booking payment) with
      | Some booking =>
          let b := Booking.set_status Status.confirmed booking in
          let db1 := Booking_save b db in
          let db2 := Db.add_transaction
                       (Transaction.mk "payment" (Booking._id b)
                          (Payment.vendor payment) (Payment.amount payment))
                       db1 in
          let db3 := Db.add_notification
                       (Notification.mk None (Some (Payment.vendor payment))
                          "payment_received" (Booking._id b)) db2 in
          Db.add_notification
            (Notification.mk (Some (Payment.user payment)) None
               "payment_success" (Booking._id b)) db3
      | None => db
      end
  | _ =>
      match Booking_findById db (Payment.booking payment) with
      | Some booking =>
          let b := Booking.set_status Status.pending_payment booking in
          let db1 := Booking_save b db in
          Db.add_notification
            (Notification.mk (Some (Payment.user payment)) None
               "payment_failed" (Booking._id b)) db1
      | None => db
      end
  end.

(** ** Vocabulary of the specification and example data *)

Definition day : Z := 86400000.
Definition hour : Z := 3600000.

(** Instants counted from the epoch. *)
Definition t0 : Date := 0.
Definition days (n : Z) : Date := n * day.
Definition hours (n : Z) : Date := n * hour.

(** The rate card of the specification's examples: 1000 a day, no hourly
    overage, no deposit, and the given weekly discount. *)
Definition rateCard (weeklyDiscountPercent : Q) : Pricing.t :=
  Pricing.mk 1000 None weeklyDiscountPercent 0 0 0.

(** In doubles: a rate card of [daily] a day and nothing else, the decimal
    [n / 100] as a request or a stored document gives it, and the flat
    promotion of 10000. *)
Definition rateCard64 (daily : Double.t) : Pricing64.t :=
  Pricing64.mk daily None Double.zero Double.zero Double.zero Double.zero.

Definition hundredths (n : Z) : Double.t :=
  Double.div (Double.of_Z n) (Double.of_Z 100).

Definition promo64_FLAT10000 : PromoCode64.t :=
  PromoCode64.mk PromoCode.flat (Double.of_Z 10000) None.

(** A vehicle at 1000 a day and a flat promotion of 10000. *)
Definition vehicle_V1 : Vehicle.t :=
  Vehicle.mk "V1" "N1" "Toyota Innova Crysta" (Some (rateCard 0)) [] true.

Definition promo_FLAT10000 : PromoCode.t :=
  PromoCode.mk "P1" "FLAT10000" PromoCode.flat 10000 None None t0 (days 100)
               true.

Definition db_pricing : Db.t :=
  Db.mk [vehicle_V1] [VendorProfile.mk "N1" "U9"] [promo_FLAT10000] [] [] [].

Definition body_reversed_window : PriceRequest.t :=
  PriceRequest.mk (Some "V1") (Some (days 3)) (Some t0) None "self-drive"
                  false.

Definition blocking (s : Status.t) : Prop :=
  s = Status.confirmed \/ s = Status.checked_out \/ s = Status.in_progress.

(** The strict (half-open) test of the booking query. *)
Definition overlaps (b : Booking.t) (start end_ : Date) : Prop :=
  Booking.pickup_datetime b < end_ /\ start < Booking.dropoff_datetime b.

(** The closed test of the blackout blocks. *)
Definition blocks_window (k : AvailabilityBlock.t) (pickup dropoff : Date)
  : Prop :=
  AvailabilityBlock.start k <= dropoff /\ pickup <= AvailabilityBlock.end_ k.

(** A booking of vehicle V1 by customer U1 with the given window and
    status; its price is three days at 1000 with a deposit of 500. *)
Definition booking_V1 (id : Id) (pickup dropoff : Date) (s : Status.t)
  : Booking.t :=
  Booking.mk id ("BOOK_" ++ id) "U1" "N1" "V1" None pickup dropoff "self-drive"
    (Duration.mk 3 72) (PriceBreakdown.mk 3000 0 540 0 500 4040) None None s
    None None (Some (DepositRefund.mk DepositRefund.pending None)) None.

Definition db_with (bs : list Booking.t) : Db.t :=
  Db.mk [vehicle_V1] [VendorProfile.mk "N1" "U9"] [promo_FLAT10000] bs [] [].

Definition db_pending : Db.t :=
  db_with [booking_V1 "B1" (hours 10) (hours 12) Status.pending_payment].

(** Vehicle V2 is blocked by its vendor from 10:00 to 12:00. *)
Definition vehicle_V2 : Vehicle.t :=
  Vehicle.mk "V2" "N1" "Royal Enfield Classic" (Some (rateCard 0))
    [AvailabilityBlock.mk (hours 10) (hours 12) "maintenance"] true.

Definition db_blackout : Db.t :=
  Db.mk [vehicle_V1; vehicle_V2] [VendorProfile.mk "N1" "U9"] [] [] [] [].

Definition body_after_blackout : AvailabilityRequest.t :=
  AvailabilityRequest.mk (Some "V2") (Some (hours 12)) (Some (hours 14)).

(** The caller passes the ownership check of [cancelBooking]: a customer
    must be the customer of the booking. *)
Definition may_cancel (user : User.t) (booking : Booking.t) : Prop :=
  User.role user = Role.customer -> Booking.customer booking = User._id user.

Definition env0 : Env.t := Env.mk (hours 0) "B9" "BOOK_0_abcdefghi".
Definition customer_U1 : User.t := User.mk "U1" Role.customer.
Definition vendor_U9 : User.t := User.mk "U9" Role.vendor.
Definition admin_U0 : User.t := User.mk "U0" Role.admin.

Definition db_completed : Db.t :=
  db_with [booking_V1 "B1" (hours 10) (hours 82) Status.completed].

(** A confirmed reservation that starts at hour 100. *)
Definition db_confirmed : Db.t :=
  db_with [booking_V1 "B1" (hours 100) (hours 172) Status.confirmed].

Definition body_V1 (pickup dropoff : Date) : CreateRequest.t :=
  CreateRequest.mk (Some "V1") (Some pickup) (Some dropoff) (Some "self-drive")
                   None None None.


Definition db_one_confirmed : Db.t :=
  db_with [booking_V1 "B1" (hours 10) (hours 12 + 60000) Status.confirmed].

(** ** Vehicle availability endpoints (vehicleController.js) *)

Module Reply.
(** A response whose [data] is of the handler's own shape. *)
Record t (A : Type) := mk {
  statusCode : Z;
  success : bool;
  message : string;
  data : option A
}.
Arguments mk {A} _ _ _ _.
Arguments statusCode {A} _.
Arguments success {A} _.
Arguments message {A} _.
Arguments data {A} _.
Definition failure {A : Type} (c : Z) (m : string) : t A := mk c false m None.
End Reply.

Module VehicleAvailability.
(** [data] of [getVehicleAvailability]. *)
Record t := mk {
  available : bool;
  availabilityBlocks : list AvailabilityBlock.t
}.
End VehicleAvailability.

(** [getVehicleAvailability(req, res)]: [id] is [req.params.id],
    [startDate] and [endDate] are the query parameters. *)
Definition getVehicleAvailability (db : Db.t) (id : Id)
    (startDate endDate : option Date) : Reply.t VehicleAvailability.t :=
  match Vehicle_findById db id with
  | None => Reply.failure 404 "Vehicle not found"
  | Some vehicle =>
      match startDate, endDate with
      | Some start, Some end_ =>
          let isAvailable :=
            isVehicleAvailable db (Vehicle._id vehicle) start end_ in
          let available :=
            isAvailable && negb (hasAvailabilityBlock vehicle start end_) in
          Reply.mk 200 true
            (if available then "Vehicle is available for the selected dates"
             else "Vehicle is not available for the selected dates")
            (Some (VehicleAvailability.mk available
                     (Vehicle.availabilityBlocks vehicle)))
      | _, _ => Reply.failure 400 "Start date and end date are required"
      end
  end.

(** [Vehicle.findOne({ _id, vendor })] *)
Definition Vehicle_findOne_owned (db : Db.t) (id vendor : Id)
  : option Vehicle.t :=
  find (fun v => String.eqb (Vehicle._id v) id
                 && String.eqb (Vehicle.vendor v) vendor)
       (Db.vehicles db).

Definition Vehicle_set_availabilityBlocks (bs : list AvailabilityBlock.t)
    (v : Vehicle.t) : Vehicle.t :=
  Vehicle.mk (Vehicle._id v) (Vehicle.vendor v) (Vehicle.title v)
             (Vehicle.pricing v) bs (Vehicle.isActive v).

(** [vehicle.save()] of a vehicle read from the collection. *)
Definition Vehicle_save (v : Vehicle.t) (db : Db.t) : Db.t :=
  Db.mk (map (fun x => if String.eqb (Vehicle._id x) (Vehicle._id v)
                       then v else x)
             (Db.vehicles db))
        (Db.vendors db) (Db.promoCodes db) (Db.bookings db)
        (Db.notifications db) (Db.transactions db).

(** [updateVehicleAvailability(req, res)]: [availabilityBlocks] is the
    array of the body, [None] when the body has none (an array, even an
    empty one, is truthy). *)
Definition updateVehicleAvailability (db : Db.t) (user : User.t) (id : Id)
    (availabilityBlocks : option (list AvailabilityBlock.t))
  : Db.t * Reply.t (list AvailabilityBlock.t) :=
  match Vendor_findOne_user db (User._id user) with
  | None => (db, Reply.failure 404 "Vendor profile not found")
  | Some vendor =>
      match Vehicle_findOne_owned db id (VendorProfile._id vendor) with
      | None => (db, Reply.failure 404 "Vehicle not found or access denied")
      | Some vehicle =>
          let vehicle' :=
            match availabilityBlocks with
            | Some bs => Vehicle_set_availabilityBlocks bs vehicle
            | None => vehicle
            end in
          (Vehicle_save vehicle' db,
           Reply.mk 200 true "Vehicle availability updated successfully"
             (Some (Vehicle.availabilityBlocks vehicle')))
      end
  end.

(** ** Role middleware and the booking routes (authMiddleware.js,
       bookingRoutes.js) *)

Definition Role_to_string (r : Role.t) : string :=
  match r with
  | Role.customer => "customer"
  | Role.vendor => "vendor"
  | Role.admin => "admin"
  end.

(** [requireRole(roles)(req, res, next)]: [None] is the call of [next()],
    [Some r] the response that ends the request.  [user] is [req.user]. *)
Definition requireRole (roles : list Role.t) (user : option User.t)
  : option Response.t :=
  match user with
  | None =>
      Some (Response.failure 401 "Access denied. Authentication required.")
  | Some u =>
      if negb (existsb (Role.eqb (User.role u)) roles) then
        Some (Response.failure 403
                ("Access denied. " ++ Role_to_string (User.role u)
                 ++ " role cannot access this resource."))
      else None
  end.

Definition requireCustomer := requireRole [Role.customer].
Definition requireVendorOrAdmin := requireRole [Role.vendor; Role.admin].

(** The state-changing routes of bookingRoutes.js behind
    [router.use(authMiddleware)], for a request that [authMiddleware] let
    through with [req.user = user]. *)
Inductive BookingRoute :=
| POST_bookings (body : CreateRequest.t)
| POST_bookings_cancel (id : Id) (reason : option string)
| PATCH_bookings_status (id : Id) (status : string) (reason : option string)
| POST_bookings_complete (id : Id) (penalties : option Penalties.t)
                         (notes : option string).

Definition bookingRoutes (db : Db.t) (env : Env.t) (user : User.t)
    (r : BookingRoute) : Db.t * Response.t :=
  match r with
  | POST_bookings body =>
      match requireCustomer (Some user) with
      | Some denied => (db, denied)
      | None => createBooking db env user body
      end
  | POST_bookings_cancel id reason => cancelBooking db env user id reason
  | PATCH_bookings_status id status reason =>
      match requireVendorOrAdmin (Some user) with
      | Some denied => (db, denied)
      | None => updateBookingStatus db env user id status reason
      end
  | POST_bookings_complete id penalties notes =>
      match requireVendorOrAdmin (Some user) with
      | Some denied => (db, denied)
      | None => completeBooking db env user id penalties notes
      end
  end.

(** ** E-mail verification by one-time password (User.js, otpService.js) *)

(** [Number.prototype.toString] of an integral Number. *)
Definition Number_toString (z : Z) : string :=
  NilZero.string_of_int (Z.to_int z).

Module EmailVerification.
(** [emailVerificationSchema] *)
Record t := mk {
  otp : option string;
  expiresAt : option Date;
  isVerified : bool;
  lastSentAt : option Date
}.
End EmailVerification.

Module Account.
(** The fields of a User document that the OTP code touches. *)
Record t := mk {
  email : string;
  name : string;
  emailVerification : EmailVerification.t
}.
End Account.

(** [userSchema.methods.generateEmailOtp]; [random] is the value of
    [Math.random()] and [now] the one reading of the clock.  The new
    document and the OTP. *)
Definition generateEmailOtp (now : Date) (random : Q) (u : Account.t)
  : Account.t * string :=
  let otp := Number_toString (Qfloor (100000 + random * 900000)%Q) in
  (Account.mk (Account.email u) (Account.name u)
     (EmailVerification.mk (Some otp) (Some (now + 10 * 60 * 1000))
        (EmailVerification.isVerified (Account.emailVerification u))
        (Some now)),
   otp).

Module OtpResult.
Record t := mk { success : bool; message : string }.
End OtpResult.

(** [userSchema.methods.verifyEmailOtp] *)
Definition verifyEmailOtp (now : Date) (enteredOtp : string) (u : Account.t)
  : Account.t * OtpResult.t :=
  let ev := Account.emailVerification u in
  match EmailVerification.otp ev with
  | None | Some EmptyString => (u, OtpResult.mk false "OTP not generated.")
  | Some otp =>
      if match EmailVerification.expiresAt ev with
         | Some expiresAt => expiresAt <? now
         | None => false      (* the comparison with an invalid date *)
         end
      then (u, OtpResult.mk false "OTP expired. Please request a new one.")
      else if negb (String.eqb enteredOtp otp)
      then (u, OtpResult.mk false "Invalid OTP.")
      else
        (Account.mk (Account.email u) (Account.name u)
           (EmailVerification.mk None None true
              (EmailVerification.lastSentAt ev)),
         OtpResult.mk true "Email verified successfully.")
  end.

(** What an [async] service function gives its caller. *)
Inductive Outcome (A : Type) :=
| Returns (value : A)
| Throws (error_message : string).
Arguments Returns {A} _.
Arguments Throws {A} _.

Definition OTP_EXPIRY_MINUTES : Z := 10.
Definition OTP_RESEND_COOLDOWN : Z := 60.

(** The setters of [userSchema.email] ([lowercase: true, trim: true]),
    which Mongoose also runs on the [email] of a query filter; the two
    commute. *)
Definition User_email_setters (email : string) : string :=
  trim (toLowerCase email).

(** [User.findOne({ email })] and [user.save()] on the users collection,
    whose [email] index is unique.  The filter is cast with the schema:
    the stored addresses are compared with [email] after its setters. *)
Definition User_findOne_email (users : list Account.t) (email : string)
  : option Account.t :=
  find (fun u => String.eqb (Account.email u) (User_email_setters email)) users.

Definition Account_save (u : Account.t) (users : list Account.t)
  : list Account.t :=
  map (fun x => if String.eqb (Account.email x) (Account.email u)
                then u else x) users.

Module OtpSent.
Record t := mk { success : bool; message : string; cooldown : Z }.
End OtpSent.

(** [generateAndSendOtp(email, name)]; [mail_delivered] tells whether
    [sendEmail] resolved. *)
Definition generateAndSendOtp (users : list Account.t) (now : Date)
    (random : Q) (mail_delivered : bool) (email : string)
  : list Account.t * Outcome OtpSent.t :=
  match User_findOne_email users email with
  | None => (users, Throws "User not found")
  | Some user =>
      let cooldownRemaining :=
        match EmailVerification.lastSentAt (Account.emailVerification user) with
        | Some lastSentAt =>
            Some (OTP_RESEND_COOLDOWN * 1000 - (now - lastSentAt))
        | None => None
        end in
      match cooldownRemaining with
      | Some remaining =>
          if 0 <? remaining then
            (users,
             Throws ("Please wait "
                     ++ Number_toString (Math_ceil (remaining # 1000))
                     ++ " seconds before requesting a new OTP"))
          else
            let '(user', otp) := generateEmailOtp now random user in
            (Account_save user' users,
             if mail_delivered
             then Returns (OtpSent.mk true "OTP sent successfully"
                             OTP_RESEND_COOLDOWN)
             else Throws "Failed to send email")
      | None =>
          let '(user', otp) := generateEmailOtp now random user in
          (Account_save user' users,
           if mail_delivered
           then Returns (OtpSent.mk true "OTP sent successfully"
                           OTP_RESEND_COOLDOWN)
           else Throws "Failed to send email")
      end
  end.

(** [verifyOtp(email, enteredOtp)]; a failure of the welcome mail is
    swallowed. *)
Definition verifyOtp (users : list Account.t) (now : Date)
    (email enteredOtp : string) : list Account.t * Outcome OtpResult.t :=
  match User_findOne_email users email with
  | None => (users, Throws "User not found")
  | Some user =>
      let '(user', result) := verifyEmailOtp now enteredOtp user in
      if OtpResult.success result
      then (Account_save user' users, Returns result)
      else (users, Returns result)
  end.

Module CanResend.
Record t := mk { canResend : bool; remainingTime : Z }.
End CanResend.

(** [canResendOtp(email)] *)
Definition canResendOtp (users : list Account.t) (now : Date)
    (email : string) : CanResend.t :=
  match User_findOne_email users email with
  | None => CanResend.mk true 0
  | Some user =>
      match EmailVerification.lastSentAt (Account.emailVerification user) with
      | None => CanResend.mk true 0
      | Some lastSentAt =>
          let cooldownRemaining :=
            OTP_RESEND_COOLDOWN * 1000 - (now - lastSentAt) in
          CanResend.mk (cooldownRemaining <=? 0)
                       (Z.max 0 (Math_ceil (cooldownRemaining # 1000)))
      end
  end.

(** [isOtpExpired(expiresAt)] *)
Definition isOtpExpired (now expiresAt : Date) : bool := expiresAt <? now.

(** ** Payment orders (paymentController.js, [createPaymentOrder]) *)

Module RefundDetails.
(** [paymentSchema.refundDetails]; [refundedAmount] defaults to 0. *)
Record t := mk {
  refundedAmount : Q;
  refundTransactionId : option string;
  refundStatus : option string
}.
End RefundDetails.

Module PaymentDoc.
(** A document of the payments collection. *)
Record t := mk {
  _id : Id;
  booking : Id;
  user : Id;
  vendor : Id;
  amount : Q;
  currency : string;
  gatewayOrderId : option string;
  gatewayPaymentId : option string;
  status : Payment.PaymentStatus;
  refundDetails : RefundDetails.t
}.
End PaymentDoc.

Module Ledger.
(** The document store together with the payments collection. *)
Record t := mk { db : Db.t; payments : list PaymentDoc.t }.
End Ledger.

(** What [createRazorpayOrder] resolves to: the order of the gateway or
    the description of its error. *)
Inductive GatewayOrder :=
| OrderCreated (orderId : string)
| OrderFailed (error : string).

Module PaymentOrder.
(** [data] of [createPaymentOrder]. *)
Record t := mk {
  orderId : string;
  paymentId : Id;
  amount : Q;
  currency : string
}.
End PaymentOrder.

(** [Booking.findOne({ _id, customer })] *)
Definition Booking_findOne_of_customer (db : Db.t) (id customer : Id)
  : option Booking.t :=
  find (fun b => String.eqb (Booking._id b) id
                 && String.eqb (Booking.customer b) customer)
       (Db.bookings db).

(** [Payment.findOne({ booking })] *)
Definition Payment_findOne_booking (payments : list PaymentDoc.t)
    (booking : Id) : option PaymentDoc.t :=
  find (fun p => String.eqb (PaymentDoc.booking p) booking) payments.

Definition Booking_set_payment (p : Id) (b : Booking.t) : Booking.t :=
  Booking.mk (Booking._id b) (Booking.bookingRef b) (Booking.customer b)
    (Booking.vendor b) (Booking.vehicle b) (Booking.driver b)
    (Booking.pickup_datetime b) (Booking.dropoff_datetime b)
    (Booking.bookingType b) (Booking.duration b) (Booking.priceBreakdown b)
    (Some p) (Booking.promoCode b) (Booking.status b) (Booking.cancellation b)
    (Booking.penalties b) (Booking.depositRefund b) (Booking.notes b).

(** [Math.abs(x) > 1] *)
Definition differs_by_more_than_one (x y : Q) : bool :=
  Qltb 1 (Qabs (x - y)).

(** [createPaymentOrder(req, res)].  [bookingId], [amount] and [currency]
    are the fields of the body ([currency] with its default), [newId] is
    the ObjectId of the new payment and [gateway] what
    [createRazorpayOrder] resolves to when it is called.  The message of
    the amount mismatch, which spells the two amounts in the source, is
    given without them.  The handler is one request taken alone, from its
    first read to its last write: the source awaits between
    [Payment.findOne] and [payment.save()], and nothing here speaks of two
    requests that overlap. *)
Definition createPaymentOrder (st : Ledger.t) (newId : Id) (user : User.t)
    (bookingId : option Id) (amount : option Q) (currency : string)
    (gateway : GatewayOrder) : Ledger.t * Reply.t PaymentOrder.t :=
  match bookingId, amount with
  | Some bookingId, Some amount =>
      if negb (truthy (Some bookingId)) || Qeq_bool amount 0 then
        (st, Reply.failure 400 "Booking ID and amount are required")
      else
      match Booking_findOne_of_customer (Ledger.db st) bookingId
              (User._id user) with
      | None => (st, Reply.failure 404 "Booking not found or access denied")
      | Some booking =>
          match Payment_findOne_booking (Ledger.payments st) bookingId with
          | Some existingPayment =>
              (st, Reply.failure 400 "Payment already exists for this booking")
          | None =>
              let bookingTotal :=
                PriceBreakdown.totalPayable (Booking.priceBreakdown booking) in
              if differs_by_more_than_one amount bookingTotal then
                (st, Reply.failure 400
                       "Payment amount does not match booking total")
              else
              match gateway with
              | OrderFailed error => (st, Reply.failure 400 error)
              | OrderCreated orderId =>
                  match Vendor_findById (Ledger.db st)
                          (Booking.vendor booking) with
                  | None =>
                      (st, Reply.failure 500
                             "Cannot read properties of null (reading '_id')")
                  | Some vendor =>
                      if existsb (fun p => String.eqb (PaymentDoc._id p) newId)
                                 (Ledger.payments st)
                      then (st, Reply.failure 500 "E11000 duplicate key error")
                      else
                      let payment :=
                        PaymentDoc.mk newId bookingId (User._id user)
                          (VendorProfile._id vendor) amount currency
                          (Some orderId) None Payment.initiated
                          (RefundDetails.mk 0 None None) in
                      let booking' := Booking_set_payment newId booking in
                      (Ledger.mk (Booking_save booking' (Ledger.db st))
                                 (Ledger.payments st ++ [payment]),
                       Reply.mk 200 true "Payment order created successfully"
                         (Some (PaymentOrder.mk orderId newId amount currency)))
                  end
              end
          end
      end
  | _, _ => (st, Reply.failure 400 "Booking ID and amount are required")
  end.

(** ** Further vocabulary *)

(** No two stored bookings share an [_id]. *)
Definition unique_ids (db : Db.t) : Prop :=
  NoDup (map Booking._id (Db.bookings db)).


(** A rate card of 1000 a day with an extra-hour charge of 100. *)
Definition rateCard_hourly : Pricing.t := Pricing.mk 1000 None 0 0 100 0.

(** A 10 percent promotion capped at 200. *)
Definition promo_SAVE10 : PromoCode.t :=
  PromoCode.mk "P2" "SAVE10" PromoCode.percentage 10 None (Some 200%Q) t0
               (days 100) true.


(** The bookings collection is the only part of the store a request
    changed, apart from the notification and transaction logs. *)
Definition same_catalog (db db' : Db.t) : Prop :=
  Db.vehicles db' = Db.vehicles db
  /\ Db.vendors db' = Db.vendors db
  /\ Db.promoCodes db' = Db.promoCodes db.

(** Two reservations of vehicle V1: B1 confirmed, B2 in progress. *)
Definition db_two : Db.t :=
  db_with [booking_V1 "B1" (hours 100) (hours 172) Status.confirmed;
           booking_V1 "B2" (hours 10) (hours 82) Status.in_progress].

(** A vendor who is not the vendor of vehicles V1 and V2. *)
Definition db_two_vendors : Db.t :=
  Db.mk [vehicle_V1; vehicle_V2]
        [VendorProfile.mk "N1" "U9"; VendorProfile.mk "N2" "U8"] [] [] [] [].

Definition vendor_U8 : User.t := User.mk "U8" Role.vendor.

(** One registered, unverified user who was never sent a code. *)
Definition account_asha : Account.t :=
  Account.mk "asha@example.com" "Asha"
    (EmailVerification.mk None None false None).

(** The user may be sent a code at [now]: none was sent in the last 60
    seconds. *)
Definition cooled_down (u : Account.t) (now : Date) : Prop :=
  forall lastSentAt,
    EmailVerification.lastSentAt (Account.emailVerification u)
    = Some lastSentAt ->
    lastSentAt + 60000 <= now.

(** The users collection after a code was sent to Asha at hour 1. *)
Definition users_sent : list Account.t :=
  fst (generateAndSendOtp [account_asha] (hours 1) (1 # 3) true
         "asha@example.com").

(** The message of the cooldown error of [generateAndSendOtp]. *)
Definition wait_message (seconds : Z) : string :=
  "Please wait " ++ Number_toString seconds
  ++ " seconds before requesting a new OTP".

(** Two documents describe the same reservation: they agree on everything
    but the status and the cancellation, penalty, deposit-refund and notes
    records. *)
Definition same_reservation (x y : Booking.t) : Prop :=
  Booking._id x = Booking._id y
  /\ Booking.bookingRef x = Booking.bookingRef y
  /\ Booking.customer x = Booking.customer y
  /\ Booking.vendor x = Booking.vendor y
  /\ Booking.vehicle x = Booking.vehicle y
  /\ Booking.driver x = Booking.driver y
  /\ Booking.pickup_datetime x = Booking.pickup_datetime y
  /\ Booking.dropoff_datetime x = Booking.dropoff_datetime y
  /\ Booking.bookingType x = Booking.bookingType y
  /\ Booking.duration x = Booking.duration y
  /\ Booking.priceBreakdown x = Booking.priceBreakdown y
  /\ Booking.payment x = Booking.payment y
  /\ Booking.promoCode x = Booking.promoCode y.

(** The collection [l'] holds the reservations of [l], one for one and in
    the same order. *)
Definition same_reservations (db db' : Db.t) : Prop :=
  Forall2 same_reservation (Db.bookings db) (Db.bookings db').

(** The ledger of the confirmed reservation B1 (total payable 4040) with
    no payment yet. *)
Definition ledger_confirmed : Ledger.t := Ledger.mk db_confirmed [].

(** * Properties *)

(** ** Arithmetic of the JavaScript primitives *)

Lemma Qltb_lt (x y : Q) : Qltb x y = true <-> (x < y)%Q.
Proof.
  unfold Qltb. rewrite negb_true_iff. split; intro H.
  - apply Qnot_le_lt. intro Hle. apply Qle_bool_iff in Hle. congruence.
  - destruct (Qle_bool y x) eqn:E; [|reflexivity].
    apply Qle_bool_iff in E. exfalso. exact (Qlt_not_le _ _ H E).
Qed.

Lemma Qltb_ge (x y : Q) : Qltb x y = false <-> (y <= x)%Q.
Proof.
  unfold Qltb. rewrite negb_false_iff. apply Qle_bool_iff.
Qed.

Lemma Math_ceil_nonpos (z : Z) (p : positive) : z <= 0 -> Math_ceil (z # p) <= 0.
Proof.
  intro Hz. unfold Math_ceil.
  rewrite <- (Qceiling_Z 0). apply Qceiling_resp_le.
  unfold Qle; simpl. lia.
Qed.

(** ** Pricing calculator *)

(** Pricing determinism example of the specification: three days at 1000
    with no discount give base 3000, taxes 540 and total 3540. *)
Example price_three_days :
  CalculateBookingPrice.priceBreakdown (rateCard 0) t0 (days 3) "self-drive"
    false None
  = PriceBreakdown.mk 3000 0 540 0 0 3540.
Proof. reflexivity. Qed.

(** Weekly discount boundary of the specification: exactly seven days with
    a 10% weekly discount give base 6300. *)
Example price_weekly_boundary :
  (CalculateBookingPrice.baseAmount (rateCard 10) t0 (days 7) == 6300)%Q.
Proof. reflexivity. Qed.

Lemma durationDays_nonpos (pickup dropoff : Date) :
  dropoff <= pickup ->
  CalculateBookingPrice.durationHours pickup dropoff <= 0
  /\ CalculateBookingPrice.durationDays pickup dropoff <= 0.
Proof.
  intro H.
  assert (Hh : CalculateBookingPrice.durationHours pickup dropoff <= 0).
  { apply Math_ceil_nonpos. unfold CalculateBookingPrice.durationMs. lia. }
  split; [exact Hh|].
  apply Math_ceil_nonpos. exact Hh.
Qed.

(** C10: the price is not monotone in the duration.  With dailyRate 1000
    and a weekly discount of 20 percent, seven days cost 5600 and six days
    6000; and under a positive weekly discount every duration of 7 to 29
    days without leftover hours has the same base amount, the discounted
    price of one week. *)
Theorem C10_price_not_monotone_in_duration :
  ((CalculateBookingPrice.baseAmount (rateCard 20) t0 (days 7) == 5600)%Q
   /\ (CalculateBookingPrice.baseAmount (rateCard 20) t0 (days 6) == 6000)%Q
   /\ (CalculateBookingPrice.baseAmount (rateCard 20) t0 (days 7)
       < CalculateBookingPrice.baseAmount (rateCard 20) t0 (days 6))%Q)
  /\ forall (pricing : Pricing.t) (pickup dropoff : Date),
       (0 < Pricing.weeklyDiscountPercent pricing)%Q ->
       7 <= CalculateBookingPrice.durationDays pickup dropoff < 30 ->
       Z.rem (CalculateBookingPrice.durationHours pickup dropoff) 24 = 0 ->
       (CalculateBookingPrice.baseAmount pricing pickup dropoff
        == Pricing.baseDaily pricing * 7
           - Pricing.baseDaily pricing * 7
             * (Pricing.weeklyDiscountPercent pricing / 100))%Q.
Proof.
  split.
  - repeat split.
  - intros pricing pickup dropoff Hw [Hlo Hhi] Hrem.
    unfold CalculateBookingPrice.baseAmount, CalculateBookingPrice.tierAmount.
    rewrite Hrem. simpl (0 <? 0). cbv beta iota.
    replace (30 <=? CalculateBookingPrice.durationDays pickup dropoff)
      with false by (symmetry; apply Z.leb_gt; lia).
    replace (7 <=? CalculateBookingPrice.durationDays pickup dropoff)
      with true by (symmetry; apply Z.leb_le; lia).
    apply Qltb_lt in Hw. rewrite Hw. simpl. reflexivity.
Qed.

(** Ten days and eight days cost the same under a 20 percent weekly
    discount. *)
Lemma C10_witness :
  (0 < Pricing.weeklyDiscountPercent (rateCard 20))%Q
  /\ 7 <= CalculateBookingPrice.durationDays t0 (days 10) < 30
  /\ Z.rem (CalculateBookingPrice.durationHours t0 (days 10)) 24 = 0
  /\ (CalculateBookingPrice.baseAmount (rateCard 20) t0 (days 10)
      == Pricing.baseDaily (rateCard 20) * 7
         - Pricing.baseDaily (rateCard 20) * 7
           * (Pricing.weeklyDiscountPercent (rateCard 20) / 100))%Q.
Proof.
  assert (Hw : (0 < Pricing.weeklyDiscountPercent (rateCard 20))%Q)
    by reflexivity.
  assert (Hd : 7 <= CalculateBookingPrice.durationDays t0 (days 10) < 30)
    by (vm_compute; split; congruence).
  assert (Hr : Z.rem (CalculateBookingPrice.durationHours t0 (days 10)) 24 = 0)
    by reflexivity.
  split; [exact Hw | split; [exact Hd | split; [exact Hr |]]].
  exact (proj2 C10_price_not_monotone_in_duration (rateCard 20) t0 (days 10)
           Hw Hd Hr).
Defined.

(** [Math.round] of a finite double: the integer nearest to its value, a
    half going up; it is negative as soon as the value is below -1/2. *)
Lemma Math_round_finite (s : bool) (m : positive) (e : Z) :
  let v := (inject_Z (cond_Zopp s (Z.pos m)) * 2 ^ e)%Q in
  exists k,
    Double.Math_round (S754_finite s m e) = Some k
    /\ (inject_Z k - (1 # 2) <= v)%Q /\ (v < inject_Z k + (1 # 2))%Q
    /\ ((v < - (1 # 2))%Q -> k < 0).
Proof.
  intro v. exists (Qfloor (v + (1 # 2))%Q).
  pose proof (Qfloor_le (v + (1 # 2))%Q) as Hlo.
  pose proof (Qlt_floor (v + (1 # 2))%Q) as Hhi.
  rewrite inject_Z_plus in Hhi. change (inject_Z 1) with 1%Q in Hhi.
  split; [reflexivity|]. split; [lra|]. split; [lra|].
  intro Hneg. rewrite Zlt_Qlt. change (inject_Z 0) with 0%Q. lra.
Qed.

(** The literal [0.18] is the quotient of 18 by 100, rounded once. *)
Example lit_0_18_is_18_hundredths : Double.lit_0_18 = hundredths 18.
Proof. reflexivity. Qed.

(** The doubles round where exact arithmetic does not.  One day at 510
    with a promotion of 23 percent: the sum 510 + 91.8 - 117.3 comes out
    just below 484.5 and [totalPayable] is 484.  One day at 39 with a flat
    promotion of 46.52: the sum 39 + 7.02 - 46.52 comes out just below
    -0.5 and [totalPayable] is -1. *)
Example total_510_a_day_23_percent :
  PriceBreakdown64.totalPayable
    (CalculateBookingPrice64.priceBreakdown (rateCard64 (Double.of_Z 510)) t0
       (days 1) "self-drive" false
       (Some (PromoCode64.mk PromoCode.percentage (Double.of_Z 23) None)))
  = Some 484.
Proof. vm_compute. reflexivity. Qed.

Example total_39_a_day_flat_46_52 :
  PriceBreakdown64.totalPayable
    (CalculateBookingPrice64.priceBreakdown (rateCard64 (Double.of_Z 39)) t0
       (days 1) "self-drive" false
       (Some (PromoCode64.mk PromoCode.flat (hundredths 4652) None)))
  = Some (-1).
Proof. vm_compute. reflexivity. Qed.

(** C9, as amended: the promotion discount is subtracted from the grand
    total and the difference is rounded, not clamped at zero.  In the
    doubles of the engine: a flat promotion's discount is its
    [discountValue], whatever the amounts are; the difference is the sum of
    base amount, driver amount, 18 percent tax on both and deposit, added
    in that order, minus the discount; and when that difference is a finite
    number, [totalPayable] is the integer nearest to it (a half going up),
    which is negative whenever the difference is below -1/2. *)
Theorem C9_total_payable_not_clamped (pricing : Pricing64.t)
    (pickup dropoff : Date) (bookingType : string) (driverRequired : bool)
    (promo : PromoCode64.t) :
  let pb := CalculateBookingPrice64.priceBreakdown pricing pickup dropoff
              bookingType driverRequired (Some promo) in
  let base := PriceBreakdown64.baseAmount pb in
  let driver := PriceBreakdown64.driverAmount pb in
  let deposit := PriceBreakdown64.deposit pb in
  let discount := CalculateBookingPrice64.discount pricing pickup dropoff
                    (Some promo) in
  let taxes := SFmul 53 1024 (SFadd 53 1024 base driver)
                 (S754_finite false 6485183463413514 (-55)) in
  let difference :=
    SFsub 53 1024
      (SFadd 53 1024 (SFadd 53 1024 (SFadd 53 1024 base driver) taxes) deposit)
      discount in
  (PromoCode64.discountType promo = PromoCode.flat ->
   discount = PromoCode64.discountValue promo)
  /\ forall s m e,
       difference = S754_finite s m e ->
       let v := (inject_Z (cond_Zopp s (Z.pos m)) * 2 ^ e)%Q in
       exists k,
         PriceBreakdown64.totalPayable pb = Some k
         /\ (inject_Z k - (1 # 2) <= v)%Q /\ (v < inject_Z k + (1 # 2))%Q
         /\ ((v < - (1 # 2))%Q -> k < 0).
Proof.
  intros pb base driver deposit discount taxes difference. split.
  - intro Hflat. unfold discount, CalculateBookingPrice64.discount.
    rewrite Hflat. reflexivity.
  - intros s m e Hd.
    assert (Ht : PriceBreakdown64.totalPayable pb
                 = Double.Math_round difference) by reflexivity.
    rewrite Ht, Hd. apply Math_round_finite.
Qed.

(** One day at 1000 with the flat promotion of 10000: the discount is
    10000, the difference is -8820, and [totalPayable] is negative. *)
Lemma C9_witness :
  CalculateBookingPrice64.discount (rateCard64 (Double.of_Z 1000)) (days 2)
    (days 3) (Some promo64_FLAT10000)
  = Double.of_Z 10000
  /\ exists k,
       PriceBreakdown64.totalPayable
         (CalculateBookingPrice64.priceBreakdown
            (rateCard64 (Double.of_Z 1000)) (days 2) (days 3) "self-drive"
            false (Some promo64_FLAT10000))
       = Some k
       /\ k < 0.
Proof.
  destruct (C9_total_payable_not_clamped (rateCard64 (Double.of_Z 1000))
              (days 2) (days 3) "self-drive" false promo64_FLAT10000)
    as [Hflat Hround].
  split; [apply Hflat; reflexivity|].
  destruct (Hround true 4848846278492160%positive (-39) eq_refl)
    as [k [Hk [_ [_ Hneg]]]].
  exists k. split; [exact Hk|]. apply Hneg. reflexivity.
Defined.

(** C9 fails as stated: one day at 1000 with a flat promotion of 10000 is
    priced with base 1000, taxes 180, discount 10000 and
    [totalPayable = -8820]. *)
Lemma C9_counterexample :
  CalculateBookingPrice64.priceBreakdown (rateCard64 (Double.of_Z 1000))
    (days 2) (days 3) "self-drive" false (Some promo64_FLAT10000)
  = PriceBreakdown64.mk (Double.of_Z 1000) Double.zero (Some 180) (Some 10000)
      Double.zero (Some (-8820)).
Proof. vm_compute. reflexivity. Qed.

(** C8, as amended: the price computation does not validate the window.
    For a vehicle with a rate card and a drop-off that is not after the
    pick-up it answers 200 with a price breakdown whose duration is
    non-positive in hours and in days. *)
Theorem C8_non_positive_window_is_priced (db : Db.t) (now : Date)
    (body : PriceRequest.t) (vehicleId : Id) (pickup dropoff : Date)
    (vehicle : Vehicle.t) (pricing : Pricing.t) :
  PriceRequest.vehicleId body = Some vehicleId ->
  truthy (Some vehicleId) = true ->
  PriceRequest.pickupDateTime body = Some pickup ->
  PriceRequest.dropoffDateTime body = Some dropoff ->
  Vehicle_findById db vehicleId = Some vehicle ->
  Vehicle.pricing vehicle = Some pricing ->
  dropoff <= pickup ->
  exists pb dur promo,
    calculateBookingPrice db now (Some body) true
    = Resolved (Response.mk 200 true "" (PriceData pb dur promo)) Undefined
    /\ Duration.hours dur <= 0 /\ Duration.days dur <= 0.
Proof.
  intros Hv Ht Hp Hd Hf Hpr Hle.
  unfold calculateBookingPrice. rewrite Hv, Hp, Hd, Ht. simpl negb.
  cbv iota. rewrite Hf, Hpr. unfold respond.
  do 3 eexists. split; [reflexivity|].
  unfold CalculateBookingPrice.duration. simpl.
  destruct (durationDays_nonpos pickup dropoff Hle) as [Hh Hdays].
  split; assumption.
Qed.

Lemma C8_witness :
  exists pb dur promo,
    calculateBookingPrice db_pricing day (Some body_reversed_window) true
    = Resolved (Response.mk 200 true "" (PriceData pb dur promo)) Undefined
    /\ Duration.hours dur <= 0 /\ Duration.days dur <= 0.
Proof.
  apply (C8_non_positive_window_is_priced db_pricing day body_reversed_window
           "V1" (days 3) t0 vehicle_V1 (rateCard 0));
    try reflexivity.
  vm_compute; congruence.
Defined.

(** C8 fails as stated: a request whose drop-off is three days before its
    pick-up is answered 200 with a breakdown (base -3000), not with an
    error. *)
Lemma C8_counterexample :
  exists dur,
    calculateBookingPrice db_pricing day (Some body_reversed_window) true
    = Resolved
        (Response.mk 200 true ""
           (PriceData (PriceBreakdown.mk (-3000) 0 (-540) 0 0 (-3540)) dur None))
        Undefined.
Proof. eexists. reflexivity. Qed.

(** ** Availability oracle *)

Lemma includes_blockingStatuses (s : Status.t) :
  Status.includes blockingStatuses s = true <-> blocking s.
Proof.
  unfold blocking. destruct s; simpl; split; intro H;
    try reflexivity; try discriminate; auto;
    destruct H as [H | [H | H]]; discriminate.
Qed.

Lemma isVehicleAvailable_false_iff (db : Db.t) (vehicleId : Id)
    (start end_ : Date) :
  isVehicleAvailable db vehicleId start end_ = false
  <-> exists b, In b (Db.bookings db)
                /\ Booking.vehicle b = vehicleId
                /\ blocking (Booking.status b)
                /\ overlaps b start end_.
Proof.
  unfold isVehicleAvailable, overlaps.
  rewrite negb_false_iff, existsb_exists.
  split.
  - intros [b [Hin Hb]].
    repeat rewrite andb_true_iff in Hb.
    destruct Hb as [[Hveh Hst] [Hp Hd]].
    exists b. repeat split.
    + exact Hin.
    + apply String.eqb_eq. exact Hveh.
    + apply includes_blockingStatuses. exact Hst.
    + apply Z.ltb_lt. exact Hp.
    + apply Z.ltb_lt. exact Hd.
  - intros [b [Hin [Hveh [Hst [Hp Hd]]]]].
    exists b. split; [exact Hin|].
    repeat rewrite andb_true_iff. repeat split.
    + apply String.eqb_eq. exact Hveh.
    + apply includes_blockingStatuses. exact Hst.
    + apply Z.ltb_lt. exact Hp.
    + apply Z.ltb_lt. exact Hd.
Qed.

Lemma isVehicleAvailable_true_iff (db : Db.t) (vehicleId : Id)
    (start end_ : Date) :
  isVehicleAvailable db vehicleId start end_ = true
  <-> forall b, In b (Db.bookings db) -> Booking.vehicle b = vehicleId ->
                blocking (Booking.status b) -> ~ overlaps b start end_.
Proof.
  split.
  - intros Ht b Hin Hveh Hst Hov.
    assert (Hf : isVehicleAvailable db vehicleId start end_ = false).
    { apply isVehicleAvailable_false_iff. exists b. auto. }
    congruence.
  - intro Hall.
    destruct (isVehicleAvailable db vehicleId start end_) eqn:E;
      [reflexivity|].
    apply isVehicleAvailable_false_iff in E.
    destruct E as [b [Hin [Hveh [Hst Hov]]]].
    exfalso. exact (Hall b Hin Hveh Hst Hov).
Qed.

Lemma hasAvailabilityBlock_false_iff (vehicle : Vehicle.t)
    (pickup dropoff : Date) :
  hasAvailabilityBlock vehicle pickup dropoff = false
  <-> forall k, In k (Vehicle.availabilityBlocks vehicle) ->
                ~ blocks_window k pickup dropoff.
Proof.
  unfold hasAvailabilityBlock, blocks_window. split.
  - intros Hf k Hin [Hs He].
    assert (Ht : existsb
                   (fun block => (AvailabilityBlock.start block <=? dropoff)
                                 && (pickup <=? AvailabilityBlock.end_ block))
                   (Vehicle.availabilityBlocks vehicle) = true).
    { apply existsb_exists. exists k. split; [exact Hin|].
      apply andb_true_iff. split; apply Z.leb_le; assumption. }
    congruence.
  - intro Hall.
    destruct (existsb _ (Vehicle.availabilityBlocks vehicle)) eqn:E;
      [|reflexivity].
    apply existsb_exists in E. destruct E as [k [Hin Hk]].
    apply andb_true_iff in Hk. destruct Hk as [Hs He].
    apply Z.leb_le in Hs. apply Z.leb_le in He.
    exfalso. exact (Hall k Hin (conj Hs He)).
Qed.

(** Overlap correctness examples of the specification: after a confirmed
    booking of 10:00-12:00 the window 12:00-14:00 is free; after a confirmed
    booking of 10:00-12:01 it is not. *)
Example back_to_back_is_available :
  isVehicleAvailable
    (db_with [booking_V1 "B1" (hours 10) (hours 12) Status.confirmed])
    "V1" (hours 12) (hours 14) = true.
Proof. reflexivity. Qed.

Example one_minute_overlap_is_unavailable :
  isVehicleAvailable
    (db_with [booking_V1 "B1" (hours 10) (hours 12 + 60000) Status.confirmed])
    "V1" (hours 12) (hours 14) = false.
Proof. reflexivity. Qed.

(** C3, as amended: the availability check reports the vehicle unavailable
    exactly when a stored reservation of that vehicle whose status is
    confirmed, checked_out or in_progress overlaps the requested window;
    reservations in any other status, pending_payment included, do not
    block. *)
Theorem C3_only_paid_reservations_block (db : Db.t) (vehicleId : Id)
    (start end_ : Date) :
  (isVehicleAvailable db vehicleId start end_ = false
   <-> exists b, In b (Db.bookings db)
                 /\ Booking.vehicle b = vehicleId
                 /\ blocking (Booking.status b)
                 /\ overlaps b start end_)
  /\ ((forall b, In b (Db.bookings db) -> Booking.vehicle b = vehicleId ->
                 overlaps b start end_ ->
                 Booking.status b = Status.pending_payment) ->
      isVehicleAvailable db vehicleId start end_ = true).
Proof.
  split.
  - apply isVehicleAvailable_false_iff.
  - intro Hall. apply isVehicleAvailable_true_iff.
    intros b Hin Hveh Hst Hov.
    specialize (Hall b Hin Hveh Hov).
    rewrite Hall in Hst. destruct Hst as [H | [H | H]]; discriminate.
Qed.

Lemma C3_witness :
  isVehicleAvailable db_pending "V1" (hours 11) (hours 13) = true.
Proof.
  apply (proj2 (C3_only_paid_reservations_block db_pending "V1" (hours 11)
                  (hours 13))).
  intros b Hin _ _. simpl in Hin.
  destruct Hin as [Hb | []]. rewrite <- Hb. reflexivity.
Defined.

(** C3 fails as stated: a reservation in pending_payment for 10:00-12:00
    does not block a request for 11:00-13:00 on the same vehicle. *)
Lemma C3_counterexample :
  exists b, In b (Db.bookings db_pending)
            /\ Booking.vehicle b = "V1"
            /\ Booking.status b = Status.pending_payment
            /\ overlaps b (hours 11) (hours 13)
            /\ isVehicleAvailable db_pending "V1" (hours 11) (hours 13) = true.
Proof.
  exists (booking_V1 "B1" (hours 10) (hours 12) Status.pending_payment).
  split; [left; reflexivity|].
  repeat split.
Qed.

(** C4, as amended: [getBookingAvailability] answers available exactly when
    no confirmed, checked_out or in_progress reservation of the vehicle
    meets the half-open test [start < windowEnd] and [end > windowStart],
    and no blackout block meets the closed test [start <= windowEnd] and
    [end >= windowStart].  A window touching a reservation is available;
    a window touching a blackout block is not. *)
Theorem C4_strict_for_bookings_closed_for_blocks (db : Db.t)
    (body : AvailabilityRequest.t) (vehicleId : Id) (pickup dropoff : Date)
    (vehicle : Vehicle.t) :
  AvailabilityRequest.vehicleId body = Some vehicleId ->
  truthy (Some vehicleId) = true ->
  AvailabilityRequest.pickupDateTime body = Some pickup ->
  AvailabilityRequest.dropoffDateTime body = Some dropoff ->
  Vehicle_findById db vehicleId = Some vehicle ->
  exists available message,
    getBookingAvailability db body
    = Response.mk 200 true message (AvailabilityData available)
    /\ (available = true
        <-> (forall b, In b (Db.bookings db) ->
                       Booking.vehicle b = vehicleId ->
                       blocking (Booking.status b) ->
                       ~ (Booking.pickup_datetime b < dropoff
                          /\ pickup < Booking.dropoff_datetime b))
            /\ (forall k, In k (Vehicle.availabilityBlocks vehicle) ->
                          ~ (AvailabilityBlock.start k <= dropoff
                             /\ pickup <= AvailabilityBlock.end_ k))).
Proof.
  intros Hv Ht Hp Hd Hf.
  unfold getBookingAvailability. rewrite Hv, Hp, Hd, Ht. simpl negb.
  cbv iota. rewrite Hf.
  do 2 eexists. split; [reflexivity|].
  rewrite andb_true_iff, negb_true_iff.
  rewrite isVehicleAvailable_true_iff, hasAvailabilityBlock_false_iff.
  reflexivity.
Qed.

Lemma C4_witness :
  exists available message,
    getBookingAvailability db_blackout body_after_blackout
    = Response.mk 200 true message (AvailabilityData available)
    /\ (available = true
        <-> (forall b, In b (Db.bookings db_blackout) ->
                       Booking.vehicle b = "V2" ->
                       blocking (Booking.status b) ->
                       ~ (Booking.pickup_datetime b < hours 14
                          /\ hours 12 < Booking.dropoff_datetime b))
            /\ (forall k, In k (Vehicle.availabilityBlocks vehicle_V2) ->
                          ~ (AvailabilityBlock.start k <= hours 14
                             /\ hours 12 <= AvailabilityBlock.end_ k))).
Proof.
  apply (C4_strict_for_bookings_closed_for_blocks db_blackout
           body_after_blackout "V2" (hours 12) (hours 14) vehicle_V2);
    reflexivity.
Defined.

(** C4 fails as stated: the window 12:00-14:00 only touches the blackout
    block 10:00-12:00 (the half-open test does not hold of it), yet the
    vehicle is reported unavailable. *)
Lemma C4_counterexample :
  (forall k, In k (Vehicle.availabilityBlocks vehicle_V2) ->
             ~ (AvailabilityBlock.start k < hours 14
                /\ hours 12 < AvailabilityBlock.end_ k))
  /\ getBookingAvailability db_blackout body_after_blackout
     = Response.mk 200 true "Vehicle is not available for the selected dates"
         (AvailabilityData false).
Proof.
  split; [|reflexivity].
  intros k [Hk | []] [_ H]. rewrite <- Hk in H. vm_compute in H. discriminate.
Qed.

(** ** Reservation state machine *)

Lemma Booking_findById_save (db : Db.t) (id : Id) (b0 b : Booking.t) :
  Booking_findById db id = Some b0 ->
  Booking._id b = id ->
  Booking_findById (Booking_save b db) id = Some b.
Proof.
  unfold Booking_findById, Booking_save. simpl.
  intros Hfind Hid. subst id.
  induction (Db.bookings db) as [|x l IH]; simpl in *; [discriminate|].
  destruct (String.eqb (Booking._id x) (Booking._id b)) eqn:E.
  - rewrite String.eqb_refl. reflexivity.
  - rewrite E. apply IH. exact Hfind.
Qed.

Lemma Booking_findById_id (db : Db.t) (id : Id) (b : Booking.t) :
  Booking_findById db id = Some b -> Booking._id b = id.
Proof.
  unfold Booking_findById. intro H.
  apply find_some in H. destruct H as [_ H].
  apply String.eqb_eq. exact H.
Qed.

Lemma may_cancel_check (user : User.t) (booking : Booking.t) :
  may_cancel user booking ->
  Role.eqb (User.role user) Role.customer
  && negb (String.eqb (Booking.customer booking) (User._id user)) = false.
Proof.
  unfold may_cancel. intro H.
  destruct (User.role user); simpl; try reflexivity.
  rewrite (H eq_refl), String.eqb_refl. reflexivity.
Qed.

Lemma terminal_not_cancellable (s : Status.t) :
  Status.terminal s = true -> Status.includes cancellableStatuses s = false.
Proof. destruct s; simpl; intro H; try reflexivity; discriminate. Qed.

Lemma terminal_not_in_progress (s : Status.t) :
  Status.terminal s = true -> Status.eqb s Status.in_progress = false.
Proof. destruct s; simpl; intro H; try reflexivity; discriminate. Qed.

Lemma cancelBooking_not_cancellable (db : Db.t) (env : Env.t) (user : User.t)
    (id : Id) (reason : option string) (booking : Booking.t) :
  Booking_findById db id = Some booking ->
  Status.includes cancellableStatuses (Booking.status booking) = false ->
  fst (cancelBooking db env user id reason) = db
  /\ Response.success (snd (cancelBooking db env user id reason)) = false.
Proof.
  intros Hf Hs. unfold cancelBooking. rewrite Hf, Hs. simpl negb.
  destruct (Role.eqb (User.role user) Role.customer
            && negb (String.eqb (Booking.customer booking) (User._id user)));
    split; reflexivity.
Qed.

(** C7: cancelling a reservation whose status is neither pending_payment
    nor confirmed fails and changes nothing in the store; for a caller who
    passes the ownership check the failure is the 400 answer "Booking
    cannot be cancelled in <status> status". *)
Theorem C7_cancel_outside_cancellable_states (db : Db.t) (env : Env.t)
    (user : User.t) (id : Id) (reason : option string) (booking : Booking.t) :
  Booking_findById db id = Some booking ->
  Booking.status booking <> Status.pending_payment ->
  Booking.status booking <> Status.confirmed ->
  fst (cancelBooking db env user id reason) = db
  /\ Booking_findById (fst (cancelBooking db env user id reason)) id
     = Some booking
  /\ Response.success (snd (cancelBooking db env user id reason)) = false
  /\ (may_cancel user booking ->
      snd (cancelBooking db env user id reason)
      = Response.failure 400
          (String.append "Booking cannot be cancelled in "
             (String.append (Status.to_string (Booking.status booking))
                " status"))).
Proof.
  intros Hf Hp Hc.
  assert (Hs : Status.includes cancellableStatuses (Booking.status booking)
               = false).
  { destruct (Booking.status booking); try reflexivity; congruence. }
  destruct (cancelBooking_not_cancellable db env user id reason booking Hf Hs)
    as [Hdb Hfail].
  split; [exact Hdb|]. split; [rewrite Hdb; exact Hf|].
  split; [exact Hfail|].
  intro Hmay. unfold cancelBooking.
  rewrite Hf, (may_cancel_check user booking Hmay), Hs. reflexivity.
Qed.

(** Idempotent terminal states example of the specification: the customer
    cancels a completed reservation. *)
Lemma C7_witness :
  fst (cancelBooking db_completed env0 customer_U1 "B1" None) = db_completed
  /\ Booking_findById
       (fst (cancelBooking db_completed env0 customer_U1 "B1" None)) "B1"
     = Some (booking_V1 "B1" (hours 10) (hours 82) Status.completed)
  /\ Response.success (snd (cancelBooking db_completed env0 customer_U1 "B1"
                              None)) = false
  /\ (may_cancel customer_U1
        (booking_V1 "B1" (hours 10) (hours 82) Status.completed) ->
      snd (cancelBooking db_completed env0 customer_U1 "B1" None)
      = Response.failure 400 "Booking cannot be cancelled in completed status").
Proof.
  apply (C7_cancel_outside_cancellable_states db_completed env0 customer_U1
           "B1" None (booking_V1 "B1" (hours 10) (hours 82) Status.completed));
    [reflexivity | discriminate | discriminate].
Defined.

(** C6: cancelling a reservation in pending_payment or confirmed succeeds
    with a fee of 50% of [priceBreakdown.baseAmount] when fewer than 24
    hours remain until the pick-up, 25% when at least 24 and fewer than 48
    remain, and 0 otherwise; the reported refund is
    [priceBreakdown.totalPayable] minus the fee, and the fee is recorded on
    the cancelled reservation.  The hours until the pick-up are the
    milliseconds from the time of the request to [pickup.datetime], divided
    by 3600000. *)
Theorem C6_cancellation_fee_and_refund (db : Db.t) (env : Env.t)
    (user : User.t) (id : Id) (reason : option string) (booking : Booking.t) :
  Booking_findById db id = Some booking ->
  may_cancel user booking ->
  Booking.status booking = Status.pending_payment
  \/ Booking.status booking = Status.confirmed ->
  let h := (Booking.pickup_datetime booking - Env.now env) # 3600000 in
  let base := PriceBreakdown.baseAmount (Booking.priceBreakdown booking) in
  let total := PriceBreakdown.totalPayable (Booking.priceBreakdown booking) in
  exists stored fee refund,
    snd (cancelBooking db env user id reason)
    = Response.mk 200 true "Booking cancelled successfully"
        (CancelData stored fee refund)
    /\ ((h < 24)%Q -> (fee == base * (1 # 2))%Q)
    /\ ((24 <= h)%Q -> (h < 48)%Q -> (fee == base * (1 # 4))%Q)
    /\ ((48 <= h)%Q -> (fee == 0)%Q)
    /\ (refund == total - fee)%Q
    /\ Booking_findById (fst (cancelBooking db env user id reason)) id
       = Some stored
    /\ Booking.status stored = Status.cancelled
    /\ option_map Cancellation.cancellationFee (Booking.cancellation stored)
       = Some (Some fee).
Proof.
  intros Hf Hmay Hst h base total.
  assert (Hs : Status.includes cancellableStatuses (Booking.status booking)
               = true).
  { destruct Hst as [E | E]; rewrite E; reflexivity. }
  assert (Hh : hoursUntilPickup booking (Env.now env) = h) by reflexivity.
  unfold cancelBooking.
  rewrite Hf, (may_cancel_check user booking Hmay), Hs. simpl negb.
  cbv iota. cbv zeta.
  do 3 eexists. split; [reflexivity|].
  unfold cancellationFee. rewrite Hh.
  split; [|split; [|split; [|split; [|split; [|split]]]]].
  - intro H24. apply Qltb_lt in H24. rewrite H24. reflexivity.
  - intros H24 H48.
    apply Qltb_ge in H24. apply Qltb_lt in H48. rewrite H24, H48.
    reflexivity.
  - intro H48.
    assert (H24 : (24 <= h)%Q) by lra.
    apply Qltb_ge in H24. apply Qltb_ge in H48. rewrite H24, H48.
    reflexivity.
  - reflexivity.
  - apply (Booking_findById_save db id booking); [exact Hf|].
    exact (Booking_findById_id db id booking Hf).
  - reflexivity.
  - reflexivity.
Qed.

(** Cancellation fee tiers of the specification: 10 hours before the
    pick-up the fee is 1500, 30 hours before 750, 72 hours before 0, on a
    base amount of 3000 and a total of 4040. *)
Example cancel_10_hours_before :
  snd (cancelBooking db_confirmed (Env.mk (hours 90) "" "") customer_U1 "B1"
         None)
  = Response.mk 200 true "Booking cancelled successfully"
      (CancelData
         (Booking.set_cancellation
            (Cancellation.mk Role.customer (hours 90) (Some (3000 * (1 # 2))%Q)
               None)
            (booking_V1 "B1" (hours 100) (hours 172) Status.cancelled))
         (3000 * (1 # 2))%Q (4040 - 3000 * (1 # 2))%Q).
Proof. reflexivity. Qed.

Example cancel_30_hours_before :
  (cancellationFee (booking_V1 "B1" (hours 100) (hours 172) Status.confirmed)
     (hours 70) == 750)%Q.
Proof. reflexivity. Qed.

Example cancel_72_hours_before :
  (cancellationFee (booking_V1 "B1" (hours 100) (hours 172) Status.confirmed)
     (hours 28) == 0)%Q.
Proof. reflexivity. Qed.

Lemma C6_witness :
  exists stored fee refund,
    snd (cancelBooking db_confirmed (Env.mk (hours 70) "" "") customer_U1 "B1"
           None)
    = Response.mk 200 true "Booking cancelled successfully"
        (CancelData stored fee refund)
    /\ (fee == 750)%Q /\ (refund == 3290)%Q
    /\ Booking.status stored = Status.cancelled.
Proof.
  destruct (C6_cancellation_fee_and_refund db_confirmed
              (Env.mk (hours 70) "" "") customer_U1 "B1" None
              (booking_V1 "B1" (hours 100) (hours 172) Status.confirmed)
              eq_refl (fun _ => eq_refl) (or_intror eq_refl))
    as [stored [fee [refund [Hr [_ [H25 [_ [Href [_ [Hst _]]]]]]]]]].
  exists stored, fee, refund.
  assert (Hfee : (fee == 750)%Q).
  { rewrite H25; [reflexivity | vm_compute; congruence | reflexivity]. }
  split; [exact Hr|]. split; [exact Hfee|]. split; [|exact Hst].
  rewrite Href, Hfee. reflexivity.
Defined.

Lemma updateBookingStatus_writes_status (db : Db.t) (env : Env.t)
    (user : User.t) (id : Id) (status : string) (reason : option string)
    (b : Booking.t) (s : Status.t) :
  Booking_findById db id = Some b ->
  (User.role user = Role.vendor -> vendor_denied db user b = false) ->
  Status.of_string status = Some s ->
  exists b', Booking_findById
               (fst (updateBookingStatus db env user id status reason)) id
             = Some b'
             /\ Booking.status b' = s.
Proof.
  intros Hf Hacc Hs. unfold updateBookingStatus. rewrite Hf.
  assert (Hchk : Role.eqb (User.role user) Role.vendor
                 && vendor_denied db user b = false).
  { destruct (User.role user) eqn:E; simpl; try reflexivity.
    apply Hacc. reflexivity. }
  rewrite Hchk, Hs. cbv zeta. simpl fst.
  pose proof (Booking_findById_id db id b Hf) as Hid.
  eexists. split.
  - apply (Booking_findById_save db id b); [exact Hf|].
    destruct (Status.eqb s Status.cancelled); [exact Hid|].
    destruct (Status.eqb s Status.completed); [|exact Hid].
    destruct (Qltb 0 _); exact Hid.
  - destruct (Status.eqb s Status.cancelled); [reflexivity|].
    destruct (Status.eqb s Status.completed); [|reflexivity].
    destruct (Qltb 0 _); reflexivity.
Qed.

Lemma completeBooking_terminal (db : Db.t) (env : Env.t) (user : User.t)
    (id : Id) (penalties : option Penalties.t) (notes : option string)
    (b : Booking.t) :
  Booking_findById db id = Some b ->
  Status.terminal (Booking.status b) = true ->
  fst (completeBooking db env user id penalties notes) = db
  /\ Response.success (snd (completeBooking db env user id penalties notes))
     = false.
Proof.
  intros Hf Ht. unfold completeBooking. rewrite Hf.
  rewrite (terminal_not_in_progress _ Ht). simpl negb.
  destruct (vendor_denied db user b); split; reflexivity.
Qed.

(** C5, as amended: on a reservation in a terminal state the cancel
    operation and the completion operation fail and change nothing.  The
    privileged status-update endpoint has no such guard: for a caller who
    passes its vendor check it stores whatever status of the enum the
    request names, whatever the current status of the reservation is, a
    terminal one included. *)
Theorem C5_terminal_states_and_status_update (db : Db.t) (env : Env.t)
    (user : User.t) (id : Id) (b : Booking.t) :
  Booking_findById db id = Some b ->
  (Status.terminal (Booking.status b) = true ->
   (forall reason,
      fst (cancelBooking db env user id reason) = db
      /\ Response.success (snd (cancelBooking db env user id reason)) = false)
   /\ (forall penalties notes,
         fst (completeBooking db env user id penalties notes) = db
         /\ Response.success
              (snd (completeBooking db env user id penalties notes)) = false))
  /\ (forall status reason s,
        (User.role user = Role.vendor -> vendor_denied db user b = false) ->
        Status.of_string status = Some s ->
        exists b', Booking_findById
                     (fst (updateBookingStatus db env user id status reason))
                     id = Some b'
                   /\ Booking.status b' = s).
Proof.
  intro Hf. split.
  - intro Ht. split.
    + intro reason.
      apply (cancelBooking_not_cancellable db env user id reason b Hf).
      apply terminal_not_cancellable. exact Ht.
    + intros penalties notes.
      apply (completeBooking_terminal db env user id penalties notes b Hf Ht).
  - intros status reason s Hacc Hs.
    apply (updateBookingStatus_writes_status db env user id status reason b s
             Hf Hacc Hs).
Qed.

(** On the completed reservation B1, vendor U9 can neither cancel nor
    complete, and moves it to confirmed with a status update. *)
Lemma C5_witness :
  (forall reason,
     fst (cancelBooking db_completed env0 vendor_U9 "B1" reason)
     = db_completed
     /\ Response.success
          (snd (cancelBooking db_completed env0 vendor_U9 "B1" reason))
        = false)
  /\ (forall penalties notes,
        fst (completeBooking db_completed env0 vendor_U9 "B1" penalties notes)
        = db_completed
        /\ Response.success
             (snd (completeBooking db_completed env0 vendor_U9 "B1" penalties
                     notes))
           = false)
  /\ exists b', Booking_findById
                  (fst (updateBookingStatus db_completed env0 vendor_U9 "B1"
                          "confirmed" None)) "B1" = Some b'
                /\ Booking.status b' = Status.confirmed.
Proof.
  pose proof (C5_terminal_states_and_status_update db_completed env0 vendor_U9
                "B1" (booking_V1 "B1" (hours 10) (hours 82) Status.completed)
                eq_refl) as [Hguard Hupd].
  destruct (Hguard eq_refl) as [Hcancel Hcomplete].
  split; [exact Hcancel|]. split; [exact Hcomplete|].
  apply (Hupd "confirmed" None Status.confirmed); [|reflexivity].
  intros _. reflexivity.
Defined.

(** C5 fails as stated: the status-update endpoint, called by an
    administrator, moves the completed reservation B1 back to
    in_progress. *)
Lemma C5_counterexample :
  Status.terminal Status.completed = true
  /\ option_map Booking.status (Booking_findById db_completed "B1")
     = Some Status.completed
  /\ requireVendorOrAdmin (Some admin_U0) = None
  /\ snd (updateBookingStatus db_completed env0 admin_U0 "B1" "in_progress"
            None)
     = Response.mk 200 true "Booking status updated successfully"
         (BookingData
            (booking_V1 "B1" (hours 10) (hours 82) Status.in_progress))
  /\ option_map Booking.status
       (Booking_findById
          (fst (updateBookingStatus db_completed env0 admin_U0 "B1"
                  "in_progress" None)) "B1")
     = Some Status.in_progress.
Proof. repeat split. Qed.

(** ** Booking orchestrator *)

(** Called without a response object, [calculateBookingPrice] rejects on
    every path: each path ends in an access to [res]. *)
Lemma calculateBookingPrice_without_res (db : Db.t) (now : Date)
    (body : option PriceRequest.t) :
  calculateBookingPrice db now body false = Rejected TypeError_res.
Proof.
  unfold calculateBookingPrice, respond.
  destruct body as [b|]; [|reflexivity].
  destruct (PriceRequest.vehicleId b); [|reflexivity].
  destruct (PriceRequest.pickupDateTime b); [|reflexivity].
  destruct (PriceRequest.dropoffDateTime b); [|reflexivity].
  destruct (negb _); [reflexivity|].
  destruct (Vehicle_findById db _) as [v|]; [|reflexivity].
  destruct (Vehicle.pricing v); reflexivity.
Qed.

(** C2, the defect: for a request whose vehicle exists and whose window
    passes the availability check, [createBooking] stores nothing and
    answers 500: the price is asked for by calling the request handler
    [calculateBookingPrice] with one plain object, so the handler finds no
    [req.body] and no [res], and its promise rejects. *)
Theorem C2_createBooking_fails_at_pricing (db : Db.t) (env : Env.t)
    (user : User.t) (body : CreateRequest.t) (vehicleId : Id)
    (pickup dropoff : Date) (vehicle : Vehicle.t) :
  CreateRequest.vehicleId body = Some vehicleId ->
  truthy (Some vehicleId) = true ->
  CreateRequest.pickup body = Some pickup ->
  CreateRequest.dropoff body = Some dropoff ->
  Vehicle_findById db vehicleId = Some vehicle ->
  isVehicleAvailable db vehicleId pickup dropoff = true ->
  createBooking db env user body = (db, Response.failure 500 TypeError_res).
Proof.
  intros Hv Ht Hp Hd Hf Ha.
  unfold createBooking. rewrite Hv, Hp, Hd, Ht. simpl negb. cbv iota.
  rewrite Hf, Ha. simpl negb. cbv iota.
  rewrite calculateBookingPrice_without_res. reflexivity.
Qed.

(** Customer U1 asks for vehicle V1 from 12:00 to 14:00 in an empty
    calendar. *)
Lemma C2_witness :
  createBooking (db_with []) env0 customer_U1 (body_V1 (hours 12) (hours 14))
  = (db_with [], Response.failure 500 TypeError_res).
Proof.
  apply (C2_createBooking_fails_at_pricing (db_with []) env0 customer_U1
           (body_V1 (hours 12) (hours 14)) "V1" (hours 12) (hours 14)
           vehicle_V1);
    reflexivity.
Defined.


(** * Further properties of the code *)

(** ** Pricing calculator *)

Lemma Math_ceil_bounds (a : Z) (b : positive) :
  Z.pos b * (Math_ceil (a # b) - 1) < a <= Z.pos b * Math_ceil (a # b).
Proof.
  unfold Math_ceil, Qceiling, Qfloor, Qopp. cbn [Qnum Qden].
  pose proof (Z.div_mod (- a) (Z.pos b)) as Hdm.
  pose proof (Z.mod_pos_bound (- a) (Z.pos b)) as Hb.
  assert (Hpos : 0 < Z.pos b) by lia.
  specialize (Hb Hpos).
  assert (Hne : Z.pos b <> 0) by lia.
  specialize (Hdm Hne).
  set (q := - a / Z.pos b) in *. set (r := (- a) mod Z.pos b) in *.
  set (B := Z.pos b) in *.
  split; nia.
Qed.

Lemma duration_hours_days_bounds (pickup dropoff : Date) :
  pickup < dropoff ->
  (1 <= CalculateBookingPrice.durationHours pickup dropoff)
  /\ 24 * (CalculateBookingPrice.durationDays pickup dropoff - 1)
     < CalculateBookingPrice.durationHours pickup dropoff
     <= 24 * CalculateBookingPrice.durationDays pickup dropoff.
Proof.
  intro Hlt.
  pose proof (Math_ceil_bounds
                (CalculateBookingPrice.durationMs pickup dropoff) 3600000)
    as Hh.
  pose proof (Math_ceil_bounds
                (CalculateBookingPrice.durationHours pickup dropoff) 24)
    as Hd.
  change (Math_ceil (CalculateBookingPrice.durationMs pickup dropoff # 3600000))
    with (CalculateBookingPrice.durationHours pickup dropoff) in Hh.
  change (Math_ceil (CalculateBookingPrice.durationHours pickup dropoff # 24))
    with (CalculateBookingPrice.durationDays pickup dropoff) in Hd.
  unfold CalculateBookingPrice.durationMs in Hh.
  split; lia.
Qed.

(** X1: a positive rental window is rounded up to whole hours and the hours
    to whole days: at least one hour and one day are billed, the billed
    hours cover the window and exceed it by less than an hour, and the
    billed days cover the hours and exceed them by less than a day. *)
Theorem X1_duration_rounds_up (pickup dropoff : Date) :
  pickup < dropoff ->
  let ms := CalculateBookingPrice.durationMs pickup dropoff in
  let h := CalculateBookingPrice.durationHours pickup dropoff in
  let d := CalculateBookingPrice.durationDays pickup dropoff in
  ms = dropoff - pickup
  /\ 1 <= h /\ 3600000 * (h - 1) < ms <= 3600000 * h
  /\ 1 <= d /\ 24 * (d - 1) < h <= 24 * d.
Proof.
  intros Hlt ms h d.
  pose proof (Math_ceil_bounds ms 3600000) as Hh.
  pose proof (Math_ceil_bounds h 24) as Hd.
  change (Math_ceil (ms # 3600000)) with h in Hh.
  change (Math_ceil (h # 24)) with d in Hd.
  assert (Hms : ms = dropoff - pickup) by reflexivity.
  clearbody ms h d.
  repeat split; lia.
Qed.

Lemma X1_witness :
  let ms := CalculateBookingPrice.durationMs (hours 10) (hours 35 + 1) in
  let h := CalculateBookingPrice.durationHours (hours 10) (hours 35 + 1) in
  let d := CalculateBookingPrice.durationDays (hours 10) (hours 35 + 1) in
  ms = hours 35 + 1 - hours 10
  /\ 1 <= h /\ 3600000 * (h - 1) < ms <= 3600000 * h
  /\ 1 <= d /\ 24 * (d - 1) < h <= 24 * d.
Proof.
  apply (X1_duration_rounds_up (hours 10) (hours 35 + 1)). reflexivity.
Defined.

(** X2: below the weekly tier a started day is billed twice.  When the
    billed hours are not a multiple of 24 and the vehicle has an extra-hour
    charge, the base amount is the daily rate for every started day, the
    last, partial one included, plus the extra-hour charge for the hours
    of that partial day. *)
Theorem X2_partial_day_billed_as_day_and_by_hour (pricing : Pricing.t)
    (pickup dropoff : Date) :
  let h := CalculateBookingPrice.durationHours pickup dropoff in
  pickup < dropoff ->
  h mod 24 <> 0 ->
  h < 24 * 6 ->
  (0 < Pricing.extraHourCharge pricing)%Q ->
  CalculateBookingPrice.durationDays pickup dropoff = h / 24 + 1
  /\ (CalculateBookingPrice.baseAmount pricing pickup dropoff
      == Pricing.baseDaily pricing * inject_Z (h / 24 + 1)
         + Pricing.extraHourCharge pricing * inject_Z (h mod 24))%Q.
Proof.
  intros h Hlt Hmod Hsmall Hextra.
  destruct (duration_hours_days_bounds pickup dropoff Hlt) as [Hh Hd].
  fold h in Hh, Hd.
  pose proof (Z.div_mod h 24 ltac:(lia)) as Hdm.
  pose proof (Z.mod_pos_bound h 24 ltac:(lia)) as Hb.
  assert (Hdays : CalculateBookingPrice.durationDays pickup dropoff
                  = h / 24 + 1) by lia.
  split; [exact Hdays|].
  unfold CalculateBookingPrice.baseAmount, CalculateBookingPrice.tierAmount.
  fold h. rewrite Hdays.
  assert (Hrem : Z.rem h 24 = h mod 24) by (apply Z.rem_mod_nonneg; lia).
  rewrite Hrem.
  replace (0 <? h mod 24) with true by (symmetry; apply Z.ltb_lt; lia).
  replace (30 <=? h / 24 + 1) with false by (symmetry; apply Z.leb_gt; lia).
  replace (7 <=? h / 24 + 1) with false by (symmetry; apply Z.leb_gt; lia).
  apply Qltb_lt in Hextra. rewrite Hextra. simpl. reflexivity.
Qed.

(** Twenty-five hours at 1000 a day and 100 an extra hour cost 2100: two
    days and one hour. *)
Lemma X2_witness :
  CalculateBookingPrice.durationDays (hours 10) (hours 35)
  = CalculateBookingPrice.durationHours (hours 10) (hours 35) / 24 + 1
  /\ (CalculateBookingPrice.baseAmount rateCard_hourly (hours 10) (hours 35)
      == Pricing.baseDaily rateCard_hourly
         * inject_Z (CalculateBookingPrice.durationHours (hours 10) (hours 35)
                     / 24 + 1)
         + Pricing.extraHourCharge rateCard_hourly
           * inject_Z (CalculateBookingPrice.durationHours (hours 10)
                         (hours 35) mod 24))%Q.
Proof.
  apply (X2_partial_day_billed_as_day_and_by_hour rateCard_hourly (hours 10)
           (hours 35)); try reflexivity.
  vm_compute. discriminate.
Defined.

Lemma Qeq_bool_false (x y : Q) : ~ (x == y)%Q -> Qeq_bool x y = false.
Proof.
  intro H. destruct (Qeq_bool x y) eqn:E; [|reflexivity].
  apply Qeq_bool_iff in E. contradiction.
Qed.

(** X3: a percentage promotion gives the percentage of the base amount,
    capped by [maxDiscountAmount] when that is set and not zero: the
    discount is then the smaller of the two.  A cap of zero, like a missing
    cap, caps nothing. *)
Theorem X3_percentage_discount_cap (pricing : Pricing.t)
    (pickup dropoff : Date) (promo : PromoCode.t) :
  PromoCode.discountType promo = PromoCode.percentage ->
  let base := CalculateBookingPrice.baseAmount pricing pickup dropoff in
  let pct := (base * (PromoCode.discountValue promo / 100))%Q in
  let discount :=
    CalculateBookingPrice.discount pricing pickup dropoff (Some promo) in
  (forall m, PromoCode.maxDiscountAmount promo = Some m -> ~ (m == 0)%Q ->
             (discount == Qmin pct m)%Q /\ (discount <= m)%Q)
  /\ (PromoCode.maxDiscountAmount promo = None -> (discount == pct)%Q)
  /\ (forall m, PromoCode.maxDiscountAmount promo = Some m -> (m == 0)%Q ->
                (discount == pct)%Q).
Proof.
  intros Htype base pct discount.
  unfold discount, CalculateBookingPrice.discount. rewrite Htype.
  fold base. fold pct.
  split; [|split].
  - intros m Hm Hnz. rewrite Hm. rewrite (Qeq_bool_false m 0 Hnz). simpl.
    destruct (Qltb m pct) eqn:E.
    + apply Qltb_lt in E. split; [|apply Qle_refl].
      symmetry. apply Q.min_r. apply Qlt_le_weak. exact E.
    + apply Qltb_ge in E. split; [|exact E].
      symmetry. apply Q.min_l. exact E.
  - intro Hm. rewrite Hm. reflexivity.
  - intros m Hm Hz. rewrite Hm.
    apply Qeq_bool_iff in Hz. rewrite Hz. reflexivity.
Qed.

(** Three days at 1000 with 10 percent off capped at 200: the discount is
    the cap, not 300. *)
Lemma X3_witness :
  (CalculateBookingPrice.discount (rateCard 0) t0 (days 3) (Some promo_SAVE10)
   == 200)%Q.
Proof.
  destruct (X3_percentage_discount_cap (rateCard 0) t0 (days 3) promo_SAVE10
              eq_refl) as [Hcap _].
  destruct (Hcap 200%Q eq_refl) as [Hmin _]; [discriminate|].
  rewrite Hmin. reflexivity.
Defined.



Lemma truthy_toUpperCase (c : string) :
  truthy (Some (toUpperCase c)) = truthy (Some c).
Proof. destruct c; reflexivity. Qed.


(** The lookup of a promotion code ignores letter case and the white
    space around the code. *)
Example promo_code_is_trimmed :
  PromoCode_findOne (Db.mk [] [] [promo_SAVE10] [] [] [])
    (toUpperCase " save10 ") day
  = Some promo_SAVE10.
Proof. reflexivity. Qed.



(** ** Availability oracle *)

(** X5: availability is inherited by sub-windows.  A window inside a
    window that no blocking reservation overlaps is free of them too, and a
    window inside a window that no blackout block meets meets none
    either. *)
Theorem X5_subwindow_stays_available (db : Db.t) (vehicle : Vehicle.t)
    (vehicleId : Id) (s e s' e' : Date) :
  s <= s' -> e' <= e ->
  (isVehicleAvailable db vehicleId s e = true ->
   isVehicleAvailable db vehicleId s' e' = true)
  /\ (hasAvailabilityBlock vehicle s e = false ->
      hasAvailabilityBlock vehicle s' e' = false).
Proof.
  intros Hs He. split.
  - intro Ha. apply isVehicleAvailable_true_iff.
    intros b Hin Hveh Hst [Hp Hd].
    apply (proj1 (isVehicleAvailable_true_iff db vehicleId s e) Ha b Hin Hveh
             Hst).
    unfold overlaps. lia.
  - intro Hb. apply hasAvailabilityBlock_false_iff.
    intros k Hin [Hks Hke].
    apply (proj1 (hasAvailabilityBlock_false_iff vehicle s e) Hb k Hin).
    unfold blocks_window. lia.
Qed.

Lemma X5_witness :
  (isVehicleAvailable db_one_confirmed "V1" (hours 13) (hours 20) = true ->
   isVehicleAvailable db_one_confirmed "V1" (hours 14) (hours 15) = true)
  /\ (hasAvailabilityBlock vehicle_V2 (hours 13) (hours 20) = false ->
      hasAvailabilityBlock vehicle_V2 (hours 14) (hours 15) = false).
Proof.
  apply (X5_subwindow_stays_available db_one_confirmed vehicle_V2 "V1"
           (hours 13) (hours 20) (hours 14) (hours 15));
    vm_compute; discriminate.
Defined.

Lemma Booking_save_In (b x : Booking.t) (db : Db.t) :
  In x (Db.bookings (Booking_save b db)) ->
  (In x (Db.bookings db) /\ Booking._id x <> Booking._id b) \/ x = b.
Proof.
  unfold Booking_save. simpl. intro Hin.
  apply in_map_iff in Hin. destruct Hin as [y [Hy Hin]].
  destruct (String.eqb (Booking._id y) (Booking._id b)) eqn:E.
  - right. symmetry. exact Hy.
  - left. subst x. split; [exact Hin|].
    apply String.eqb_neq. exact E.
Qed.

Lemma Booking_save_keeps (b x : Booking.t) (db : Db.t) :
  In x (Db.bookings db) -> Booking._id x <> Booking._id b ->
  In x (Db.bookings (Booking_save b db)).
Proof.
  unfold Booking_save. simpl. intros Hin Hne.
  apply in_map_iff. exists x. split; [|exact Hin].
  apply String.eqb_neq in Hne. rewrite Hne. reflexivity.
Qed.

(** What [cancelBooking] does to the bookings collection: nothing, or the
    save of the cancelled copy of the booking it found. *)
Lemma cancelBooking_bookings (db : Db.t) (env : Env.t) (user : User.t)
    (id : Id) (reason : option string) :
  fst (cancelBooking db env user id reason) = db
  \/ exists b c,
       Booking_findById db id = Some b
       /\ Status.includes cancellableStatuses (Booking.status b) = true
       /\ may_cancel user b
       /\ Db.bookings (fst (cancelBooking db env user id reason))
          = Db.bookings
              (Booking_save
                 (Booking.set_cancellation c
                    (Booking.set_status Status.cancelled b)) db).
Proof.
  unfold cancelBooking.
  destruct (Booking_findById db id) as [b|] eqn:Hf; [|left; reflexivity].
  destruct (Role.eqb (User.role user) Role.customer
            && negb (String.eqb (Booking.customer b) (User._id user)))
    eqn:Hacc; [left; reflexivity|].
  destruct (Status.includes cancellableStatuses (Booking.status b)) eqn:Hs;
    [|left; reflexivity].
  right. simpl negb. cbv iota. cbv zeta.
  eexists. eexists. split; [reflexivity|]. split; [exact Hs|].
  split; [|reflexivity].
  intro Hrole. rewrite Hrole in Hacc. simpl in Hacc.
  apply negb_false_iff in Hacc. apply String.eqb_eq. exact Hacc.
Qed.

Lemma completeBooking_bookings (db : Db.t) (env : Env.t) (user : User.t)
    (id : Id) (penalties : option Penalties.t) (notes : option string) :
  fst (completeBooking db env user id penalties notes) = db
  \/ exists b p,
       Booking_findById db id = Some b
       /\ Booking.status b = Status.in_progress
       /\ vendor_denied db user b = false
       /\ Db.bookings (fst (completeBooking db env user id penalties notes))
          = Db.bookings
              (Booking_save
                 (Booking.set_penalties p notes
                    (Booking.set_status Status.completed b)) db).
Proof.
  unfold completeBooking.
  destruct (Booking_findById db id) as [b|] eqn:Hf; [|left; reflexivity].
  destruct (vendor_denied db user b) eqn:Hacc; [left; reflexivity|].
  destruct (Status.eqb (Booking.status b) Status.in_progress) eqn:Hs;
    [|left; reflexivity].
  right. simpl negb. cbv iota. cbv zeta.
  exists b. eexists. split; [reflexivity|].
  split.
  { revert Hs. destruct (Booking.status b); simpl; intro Hs;
      try discriminate; reflexivity. }
  split; [exact Hacc|].
  destruct (negb (Qeq_bool _ _)); reflexivity.
Qed.

Lemma save_non_blocking_keeps_available (db : Db.t) (b : Booking.t)
    (vehicleId : Id) (s e : Date) :
  ~ blocking (Booking.status b) ->
  isVehicleAvailable db vehicleId s e = true ->
  isVehicleAvailable (Booking_save b db) vehicleId s e = true.
Proof.
  intros Hnb Ha. apply isVehicleAvailable_true_iff.
  intros x Hin Hveh Hst Hov.
  apply Booking_save_In in Hin. destruct Hin as [[Hin _] | Hx].
  - exact (proj1 (isVehicleAvailable_true_iff db vehicleId s e) Ha x Hin Hveh
             Hst Hov).
  - subst x. contradiction.
Qed.

Lemma isVehicleAvailable_bookings (db db' : Db.t) (vehicleId : Id)
    (s e : Date) :
  Db.bookings db' = Db.bookings db ->
  isVehicleAvailable db' vehicleId s e = isVehicleAvailable db vehicleId s e.
Proof. unfold isVehicleAvailable. intro H. rewrite H. reflexivity. Qed.

(** X6: cancelling and completing never take availability away.  Whatever
    the request and its outcome, a window of any vehicle that was free of
    blocking reservations before [cancelBooking] or [completeBooking] is
    free of them afterwards. *)
Theorem X6_cancel_and_complete_keep_availability (db : Db.t) (env : Env.t)
    (user : User.t) (id : Id) (vehicleId : Id) (s e : Date) :
  isVehicleAvailable db vehicleId s e = true ->
  (forall reason,
     isVehicleAvailable (fst (cancelBooking db env user id reason))
       vehicleId s e = true)
  /\ (forall penalties notes,
        isVehicleAvailable
          (fst (completeBooking db env user id penalties notes))
          vehicleId s e = true).
Proof.
  intro Ha. split.
  - intro reason.
    destruct (cancelBooking_bookings db env user id reason)
      as [E | [b [c [_ [_ [_ E]]]]]].
    + rewrite E. exact Ha.
    + rewrite (isVehicleAvailable_bookings _ _ _ _ _ E).
      apply save_non_blocking_keeps_available; [|exact Ha].
      simpl. intros [H | [H | H]]; discriminate.
  - intros penalties notes.
    destruct (completeBooking_bookings db env user id penalties notes)
      as [E | [b [p [_ [_ [_ E]]]]]].
    + rewrite E. exact Ha.
    + rewrite (isVehicleAvailable_bookings _ _ _ _ _ E).
      apply save_non_blocking_keeps_available; [|exact Ha].
      simpl. intros [H | [H | H]]; discriminate.
Qed.

Lemma X6_witness :
  (forall reason,
     isVehicleAvailable
       (fst (cancelBooking db_confirmed env0 customer_U1 "B1" reason))
       "V1" (hours 10) (hours 90) = true)
  /\ (forall penalties notes,
        isVehicleAvailable
          (fst (completeBooking db_confirmed env0 customer_U1 "B1" penalties
                  notes))
          "V1" (hours 10) (hours 90) = true).
Proof.
  apply (X6_cancel_and_complete_keep_availability db_confirmed env0
           customer_U1 "B1" "V1" (hours 10) (hours 90)).
  reflexivity.
Defined.

(** X7: a successful cancellation frees the calendar.  After
    [cancelBooking] has cancelled the reservation [id], a window of any
    vehicle is available exactly when no blocking reservation with another
    identifier overlaps it. *)
Theorem X7_cancel_frees_the_window (db : Db.t) (env : Env.t) (user : User.t)
    (id : Id) (reason : option string) (b : Booking.t) (vehicleId : Id)
    (s e : Date) :
  Booking_findById db id = Some b ->
  may_cancel user b ->
  Booking.status b = Status.pending_payment
  \/ Booking.status b = Status.confirmed ->
  (isVehicleAvailable (fst (cancelBooking db env user id reason)) vehicleId
     s e = true
   <-> forall x, In x (Db.bookings db) -> Booking._id x <> id ->
                 Booking.vehicle x = vehicleId ->
                 blocking (Booking.status x) -> ~ overlaps x s e).
Proof.
  intros Hf Hmay Hst.
  pose proof (Booking_findById_id db id b Hf) as Hid.
  assert (Hs : Status.includes cancellableStatuses (Booking.status b) = true).
  { destruct Hst as [E | E]; rewrite E; reflexivity. }
  unfold cancelBooking.
  rewrite Hf, (may_cancel_check user b Hmay), Hs. simpl negb. cbv iota.
  cbv zeta. simpl fst.
  set (b2 := Booking.set_cancellation _ _).
  assert (Hid2 : Booking._id b2 = id) by exact Hid.
  rewrite (isVehicleAvailable_bookings (Booking_save b2 db))
    by reflexivity.
  rewrite isVehicleAvailable_true_iff. split.
  - intros Hall x Hin Hne Hveh Hbl.
    apply Hall; try assumption.
    apply Booking_save_keeps; [exact Hin | congruence].
  - intros Hall x Hin Hveh Hbl.
    apply Booking_save_In in Hin. destruct Hin as [[Hin Hne] | Hx].
    + apply Hall; try assumption. congruence.
    + subst x. simpl in Hbl. destruct Hbl as [H | [H | H]]; discriminate.
Qed.

(** Once the confirmed reservation B1 (hours 100 to 172) is cancelled, its
    own window is available again. *)
Lemma X7_witness :
  isVehicleAvailable
    (fst (cancelBooking db_confirmed env0 customer_U1 "B1" None)) "V1"
    (hours 100) (hours 172) = true.
Proof.
  apply (proj2 (X7_cancel_frees_the_window db_confirmed env0 customer_U1 "B1"
                  None
                  (booking_V1 "B1" (hours 100) (hours 172) Status.confirmed)
                  "V1" (hours 100) (hours 172) eq_refl (fun _ => eq_refl)
                  (or_intror eq_refl))).
  intros x [Hx | []] Hne. subst x. exfalso. apply Hne. reflexivity.
Defined.

(** ** Reservation state machine *)




Lemma customer_is_gated (db : Db.t) (env : Env.t) (user : User.t) :
  User.role user = Role.customer ->
  (forall id status reason,
     bookingRoutes db env user (PATCH_bookings_status id status reason)
     = (db, Response.failure 403
              "Access denied. customer role cannot access this resource."))
  /\ (forall id penalties notes,
        bookingRoutes db env user (POST_bookings_complete id penalties notes)
        = (db, Response.failure 403
                 "Access denied. customer role cannot access this resource.")).
Proof.
  intro Hrole. split; intros; unfold bookingRoutes, requireVendorOrAdmin,
    requireRole; rewrite Hrole; reflexivity.
Qed.

(** X9: the role gates of the booking routes.  A customer who asks for the
    status update or for the completion of a reservation is refused with
    403 before the handler runs, and so is a vendor or an administrator who
    asks to create a reservation; nothing is stored. *)
Theorem X9_role_gates_of_the_booking_routes (db : Db.t) (env : Env.t)
    (user : User.t) :
  (User.role user = Role.customer ->
   (forall id status reason,
      bookingRoutes db env user (PATCH_bookings_status id status reason)
      = (db, Response.failure 403
               "Access denied. customer role cannot access this resource."))
   /\ (forall id penalties notes,
         bookingRoutes db env user (POST_bookings_complete id penalties notes)
         = (db, Response.failure 403
                  "Access denied. customer role cannot access this resource.")))
  /\ (User.role user <> Role.customer ->
      forall body,
        fst (bookingRoutes db env user (POST_bookings body)) = db
        /\ Response.statusCode
             (snd (bookingRoutes db env user (POST_bookings body))) = 403).
Proof.
  split.
  - apply customer_is_gated.
  - intros Hrole body. unfold bookingRoutes, requireCustomer, requireRole.
    destruct (User.role user); [contradiction | |]; split; reflexivity.
Qed.

Lemma X9_witness :
  (forall id status reason,
     bookingRoutes db_completed env0 customer_U1
       (PATCH_bookings_status id status reason)
     = (db_completed,
        Response.failure 403
          "Access denied. customer role cannot access this resource."))
  /\ (forall id penalties notes,
        bookingRoutes db_completed env0 customer_U1
          (POST_bookings_complete id penalties notes)
        = (db_completed,
           Response.failure 403
             "Access denied. customer role cannot access this resource.")).
Proof.
  apply (proj1 (X9_role_gates_of_the_booking_routes db_completed env0
                  customer_U1)).
  reflexivity.
Defined.

Lemma vendor_denied_false_iff (db : Db.t) (user : User.t) (b : Booking.t) :
  vendor_denied db user b = false
  <-> exists vendor,
        Vendor_findOne_user db (User._id user) = Some vendor
        /\ Booking.vendor b = VendorProfile._id vendor.
Proof.
  unfold vendor_denied. split.
  - destruct (Vendor_findOne_user db (User._id user)) as [v|];
      [|discriminate].
    intro H. apply negb_false_iff in H. apply String.eqb_eq in H.
    exists v. split; [reflexivity | exact H].
  - intros [v [Hv Hb]]. rewrite Hv. apply negb_false_iff.
    apply String.eqb_eq. exact Hb.
Qed.

(** X10: who can complete a reservation through the route.  The request
    succeeds exactly when the caller is not a customer, the reservation
    exists and is in_progress, and the caller owns a vendor profile that is
    the reservation's vendor; an administrator without such a profile is
    refused although the route lets the role through.  In every other case the
    store is left unchanged. *)
Theorem X10_who_can_complete (db : Db.t) (env : Env.t) (user : User.t)
    (id : Id) (penalties : option Penalties.t) (notes : option string) :
  let result :=
    bookingRoutes db env user (POST_bookings_complete id penalties notes) in
  (Response.success (snd result) = true
   <-> User.role user <> Role.customer
       /\ exists b vendor,
            Booking_findById db id = Some b
            /\ Vendor_findOne_user db (User._id user) = Some vendor
            /\ Booking.vendor b = VendorProfile._id vendor
            /\ Booking.status b = Status.in_progress)
  /\ (Response.success (snd result) = false -> fst result = db).
Proof.
  intro result. unfold result, bookingRoutes, requireVendorOrAdmin,
    requireRole.
  assert (Hcore :
    (Response.success (snd (completeBooking db env user id penalties notes))
     = true
     <-> exists b vendor,
           Booking_findById db id = Some b
           /\ Vendor_findOne_user db (User._id user) = Some vendor
           /\ Booking.vendor b = VendorProfile._id vendor
           /\ Booking.status b = Status.in_progress)
    /\ (Response.success
          (snd (completeBooking db env user id penalties notes)) = false ->
        fst (completeBooking db env user id penalties notes) = db)).
  { unfold completeBooking.
    destruct (Booking_findById db id) as [b|] eqn:Hf.
    - destruct (vendor_denied db user b) eqn:Hd.
      + split; [|reflexivity]. split; [discriminate|].
        intros [b' [v [Hb' [Hv [Hown _]]]]].
        injection Hb' as Hb'. subst b'.
        assert (Hfalse : vendor_denied db user b = false).
        { apply vendor_denied_false_iff. exists v. auto. }
        congruence.
      + apply vendor_denied_false_iff in Hd. destruct Hd as [v [Hv Hown]].
        destruct (Status.eqb (Booking.status b) Status.in_progress) eqn:Hs.
        * simpl negb. cbv iota. cbv zeta. split; [|discriminate].
          split; [|reflexivity]. intros _. exists b, v.
          repeat split; try assumption.
          revert Hs. destruct (Booking.status b); simpl; intro Hs;
            try discriminate; reflexivity.
        * simpl negb. cbv iota. split; [|reflexivity].
          split; [discriminate|].
          intros [b' [v' [Hb' [_ [_ Hst]]]]].
          injection Hb' as Hb'. subst b'. rewrite Hst in Hs. discriminate.
    - split; [|reflexivity]. split; [discriminate|].
      intros [b' [v' [Hb' _]]]. discriminate. }
  destruct Hcore as [Hiff Hfail].
  destruct (User.role user) eqn:Hrole; simpl.
  - split; [|reflexivity]. split; [discriminate|].
    intros [Hne _]. exfalso. apply Hne. reflexivity.
  - split; [|exact Hfail]. rewrite Hiff. split.
    + intro H. split; [discriminate | exact H].
    + intros [_ H]. exact H.
  - split; [|exact Hfail]. rewrite Hiff. split.
    + intro H. split; [discriminate | exact H].
    + intros [_ H]. exact H.
Qed.

Lemma createBooking_stores_nothing (db : Db.t) (env : Env.t) (user : User.t)
    (body : CreateRequest.t) :
  fst (createBooking db env user body) = db.
Proof.
  unfold createBooking.
  destruct (CreateRequest.vehicleId body); [|reflexivity].
  destruct (CreateRequest.pickup body); [|reflexivity].
  destruct (CreateRequest.dropoff body); [|reflexivity].
  destruct (negb (truthy _)); [reflexivity|].
  destruct (Vehicle_findById db _); [|reflexivity].
  destruct (negb (isVehicleAvailable _ _ _ _)); [reflexivity|].
  rewrite calculateBookingPrice_without_res. reflexivity.
Qed.

Lemma cancelBooking_same_catalog (db : Db.t) (env : Env.t) (user : User.t)
    (id : Id) (reason : option string) :
  same_catalog db (fst (cancelBooking db env user id reason)).
Proof.
  unfold cancelBooking, same_catalog.
  destruct (Booking_findById db id); [|repeat split].
  destruct (_ && _); [repeat split|].
  destruct (negb _); repeat split.
Qed.

Lemma Booking_findById_In (db : Db.t) (id : Id) (b : Booking.t) :
  Booking_findById db id = Some b -> In b (Db.bookings db).
Proof.
  unfold Booking_findById. intro H. apply find_some in H. apply H.
Qed.

(** X11: what a customer can do to the store through the booking routes.
    Whatever request a customer sends, vehicles, vendors and promotions are
    untouched, no transaction is recorded, and every stored reservation is
    either as it was or the cancelled copy of a reservation of that very
    customer that was in pending_payment or confirmed. *)
Theorem X11_customer_can_only_cancel_own (db : Db.t) (env : Env.t)
    (user : User.t) (r : BookingRoute) :
  User.role user = Role.customer ->
  let db' := fst (bookingRoutes db env user r) in
  same_catalog db db'
  /\ Db.transactions db' = Db.transactions db
  /\ forall x, In x (Db.bookings db') ->
       In x (Db.bookings db)
       \/ exists b c,
            In b (Db.bookings db)
            /\ Booking.customer b = User._id user
            /\ (Booking.status b = Status.pending_payment
                \/ Booking.status b = Status.confirmed)
            /\ x = Booking.set_cancellation c
                     (Booking.set_status Status.cancelled b).
Proof.
  intros Hrole db'.
  assert (Hsame : forall d : Db.t, d = db ->
            same_catalog db d
            /\ Db.transactions d = Db.transactions db
            /\ forall x, In x (Db.bookings d) ->
                 In x (Db.bookings db)
                 \/ exists b c,
                      In b (Db.bookings db)
                      /\ Booking.customer b = User._id user
                      /\ (Booking.status b = Status.pending_payment
                          \/ Booking.status b = Status.confirmed)
                      /\ x = Booking.set_cancellation c
                               (Booking.set_status Status.cancelled b)).
  { intros d E. subst d. repeat split. intros x Hin. left. exact Hin. }
  destruct (customer_is_gated db env user Hrole) as [Hpatch Hcomplete].
  unfold db'. destruct r as [body | id reason | id status reason
                             | id penalties notes].
  - apply Hsame. unfold bookingRoutes, requireCustomer, requireRole.
    rewrite Hrole. simpl. apply createBooking_stores_nothing.
  - simpl bookingRoutes.
    split; [apply cancelBooking_same_catalog|].
    split.
    { unfold cancelBooking.
      destruct (Booking_findById db id); [|reflexivity].
      destruct (_ && _); [reflexivity|].
      destruct (negb _); reflexivity. }
    intros x Hin.
    destruct (cancelBooking_bookings db env user id reason)
      as [E | [b [c [Hf [Hs [Hmay E]]]]]].
    + rewrite E in Hin. left. exact Hin.
    + rewrite E in Hin. apply Booking_save_In in Hin.
      destruct Hin as [[Hin _] | Hx]; [left; exact Hin|].
      right. exists b, c.
      split; [exact (Booking_findById_In db id b Hf)|].
      split; [exact (Hmay Hrole)|].
      split; [|exact Hx].
      revert Hs. destruct (Booking.status b); simpl; intro Hs;
        try discriminate; auto.
  - apply Hsame. rewrite Hpatch. reflexivity.
  - apply Hsame. rewrite Hcomplete. reflexivity.
Qed.

Lemma X11_witness :
  let db' := fst (bookingRoutes db_confirmed env0 customer_U1
                    (POST_bookings_cancel "B1" None)) in
  same_catalog db_confirmed db'
  /\ Db.transactions db' = Db.transactions db_confirmed
  /\ forall x, In x (Db.bookings db') ->
       In x (Db.bookings db_confirmed)
       \/ exists b c,
            In b (Db.bookings db_confirmed)
            /\ Booking.customer b = User._id customer_U1
            /\ (Booking.status b = Status.pending_payment
                \/ Booking.status b = Status.confirmed)
            /\ x = Booking.set_cancellation c
                     (Booking.set_status Status.cancelled b).
Proof.
  apply (X11_customer_can_only_cancel_own db_confirmed env0 customer_U1
           (POST_bookings_cancel "B1" None)).
  reflexivity.
Defined.

Lemma Booking_findById_save_other (db : Db.t) (b : Booking.t) (id' : Id) :
  id' <> Booking._id b ->
  Booking_findById (Booking_save b db) id' = Booking_findById db id'.
Proof.
  unfold Booking_findById, Booking_save. simpl. intro Hne.
  induction (Db.bookings db) as [|x l IH]; simpl; [reflexivity|].
  destruct (String.eqb (Booking._id x) (Booking._id b)) eqn:E.
  - apply String.eqb_eq in E.
    assert (E1 : String.eqb (Booking._id b) id' = false).
    { apply String.eqb_neq. congruence. }
    assert (E2 : String.eqb (Booking._id x) id' = false).
    { apply String.eqb_neq. congruence. }
    rewrite E1, E2. exact IH.
  - destruct (String.eqb (Booking._id x) id'); [reflexivity | exact IH].
Qed.

Lemma Booking_findById_bookings (d1 d2 : Db.t) (id : Id) :
  Db.bookings d1 = Db.bookings d2 ->
  Booking_findById d1 id = Booking_findById d2 id.
Proof. unfold Booking_findById. intro E. rewrite E. reflexivity. Qed.

(** What [updateBookingStatus] does to the bookings collection: nothing,
    or the save of a document with the identifier it was asked for. *)
Lemma updateBookingStatus_bookings (db : Db.t) (env : Env.t) (user : User.t)
    (id : Id) (status : string) (reason : option string) :
  fst (updateBookingStatus db env user id status reason) = db
  \/ exists b2,
       Booking._id b2 = id
       /\ Db.bookings (fst (updateBookingStatus db env user id status reason))
          = Db.bookings (Booking_save b2 db).
Proof.
  unfold updateBookingStatus.
  destruct (Booking_findById db id) as [b|] eqn:Hf; [|left; reflexivity].
  destruct (_ && _); [left; reflexivity|].
  destruct (Status.of_string status) as [s|]; [|left; reflexivity].
  right. cbv zeta. eexists. split; [|reflexivity].
  pose proof (Booking_findById_id db id b Hf) as Hid.
  destruct (Status.eqb s Status.cancelled); [exact Hid|].
  destruct (Status.eqb s Status.completed); [|exact Hid].
  destruct (Qltb 0 _); exact Hid.
Qed.

(** X12: the status-changing handlers touch one reservation only.  After
    [updateBookingStatus], [cancelBooking] or [completeBooking] on the
    reservation [id], whatever the outcome, every reservation with another
    identifier is found exactly as before. *)
Theorem X12_other_reservations_untouched (db : Db.t) (env : Env.t)
    (user : User.t) (id id' : Id) :
  id' <> id ->
  (forall status reason,
     Booking_findById (fst (updateBookingStatus db env user id status reason))
       id' = Booking_findById db id')
  /\ (forall reason,
        Booking_findById (fst (cancelBooking db env user id reason)) id'
        = Booking_findById db id')
  /\ (forall penalties notes,
        Booking_findById
          (fst (completeBooking db env user id penalties notes)) id'
        = Booking_findById db id').
Proof.
  intro Hne. split; [|split].
  - intros status reason.
    destruct (updateBookingStatus_bookings db env user id status reason)
      as [E | [b2 [Hid E]]]; [rewrite E; reflexivity|].
    rewrite (Booking_findById_bookings _ _ id' E).
    apply Booking_findById_save_other. congruence.
  - intro reason.
    destruct (cancelBooking_bookings db env user id reason)
      as [E | [b [c [Hf [_ [_ E]]]]]]; [rewrite E; reflexivity|].
    rewrite (Booking_findById_bookings _ _ id' E).
    apply Booking_findById_save_other. simpl.
    rewrite (Booking_findById_id db id b Hf). exact Hne.
  - intros penalties notes.
    destruct (completeBooking_bookings db env user id penalties notes)
      as [E | [b [p [Hf [_ [_ E]]]]]]; [rewrite E; reflexivity|].
    rewrite (Booking_findById_bookings _ _ id' E).
    apply Booking_findById_save_other. simpl.
    rewrite (Booking_findById_id db id b Hf). exact Hne.
Qed.

Lemma X12_witness :
  (forall status reason,
     Booking_findById
       (fst (updateBookingStatus db_two env0 admin_U0 "B1" status reason))
       "B2" = Booking_findById db_two "B2")
  /\ (forall reason,
        Booking_findById (fst (cancelBooking db_two env0 admin_U0 "B1" reason))
          "B2" = Booking_findById db_two "B2")
  /\ (forall penalties notes,
        Booking_findById
          (fst (completeBooking db_two env0 admin_U0 "B1" penalties notes))
          "B2" = Booking_findById db_two "B2").
Proof.
  apply (X12_other_reservations_untouched db_two env0 admin_U0 "B1" "B2").
  discriminate.
Defined.



Lemma hoursUntilPickup_antitone (b : Booking.t) (now now' : Date) :
  now <= now' -> (hoursUntilPickup b now' <= hoursUntilPickup b now)%Q.
Proof.
  intro H. unfold hoursUntilPickup, Qle. simpl. lia.
Qed.

(** X14: bounds of the cancellation fee.  For a non-negative base amount
    the fee lies between zero and half of the base amount, and it never
    decreases as the cancellation is made later. *)
Theorem X14_cancellation_fee_bounds (b : Booking.t) (now now' : Date) :
  (0 <= PriceBreakdown.baseAmount (Booking.priceBreakdown b))%Q ->
  (0 <= cancellationFee b now)%Q
  /\ (cancellationFee b now
      <= PriceBreakdown.baseAmount (Booking.priceBreakdown b) * (1 # 2))%Q
  /\ (now <= now' -> (cancellationFee b now <= cancellationFee b now')%Q).
Proof.
  intro Hbase.
  set (base := PriceBreakdown.baseAmount (Booking.priceBreakdown b)) in *.
  assert (Hcases : forall t,
            (cancellationFee b t == base * (1 # 2)
             /\ hoursUntilPickup b t < 24)%Q
            \/ (cancellationFee b t == base * (1 # 4)
                /\ 24 <= hoursUntilPickup b t
                /\ hoursUntilPickup b t < 48)%Q
            \/ (cancellationFee b t == 0
                /\ 48 <= hoursUntilPickup b t)%Q).
  { intro t. unfold cancellationFee. fold base.
    destruct (Qltb (hoursUntilPickup b t) 24) eqn:E1.
    - left. apply Qltb_lt in E1. split; [reflexivity | exact E1].
    - apply Qltb_ge in E1.
      destruct (Qltb (hoursUntilPickup b t) 48) eqn:E2.
      + right; left. apply Qltb_lt in E2.
        split; [reflexivity | split; assumption].
      + right; right. apply Qltb_ge in E2. split; [reflexivity | exact E2]. }
  split; [|split].
  - destruct (Hcases now) as [[E _] | [[E _] | [E _]]]; rewrite E; lra.
  - destruct (Hcases now) as [[E _] | [[E _] | [E _]]]; rewrite E; lra.
  - intro Hle. pose proof (hoursUntilPickup_antitone b now now' Hle) as Hh.
    destruct (Hcases now) as [[E H1] | [[E [H1 H2]] | [E H1]]];
      destruct (Hcases now') as [[E' H1'] | [[E' [H1' H2']] | [E' H1']]];
      rewrite E, E'; lra.
Qed.

Lemma X14_witness :
  (0 <= cancellationFee
          (booking_V1 "B1" (hours 100) (hours 172) Status.confirmed) (hours 28))%Q
  /\ (cancellationFee
        (booking_V1 "B1" (hours 100) (hours 172) Status.confirmed) (hours 28)
      <= PriceBreakdown.baseAmount
           (Booking.priceBreakdown
              (booking_V1 "B1" (hours 100) (hours 172) Status.confirmed))
         * (1 # 2))%Q
  /\ (hours 28 <= hours 90 ->
      (cancellationFee
         (booking_V1 "B1" (hours 100) (hours 172) Status.confirmed) (hours 28)
       <= cancellationFee
            (booking_V1 "B1" (hours 100) (hours 172) Status.confirmed)
            (hours 90))%Q).
Proof.
  apply (X14_cancellation_fee_bounds
           (booking_V1 "B1" (hours 100) (hours 172) Status.confirmed)
           (hours 28) (hours 90)).
  vm_compute. discriminate.
Defined.

(** X15: the records the status update writes beside the status.  Setting
    completed creates a pending deposit-refund record for the deposit when
    the deposit is positive and leaves the record alone otherwise; setting
    cancelled records who cancelled, when and why, but no cancellation
    fee: the fee tiers belong to [cancelBooking] only. *)
Theorem X15_updateBookingStatus_side_records (db : Db.t) (env : Env.t)
    (user : User.t) (id : Id) (reason : option string) (b : Booking.t) :
  Booking_findById db id = Some b ->
  (User.role user = Role.vendor -> vendor_denied db user b = false) ->
  let deposit := PriceBreakdown.deposit (Booking.priceBreakdown b) in
  (exists b',
     Booking_findById
       (fst (updateBookingStatus db env user id "completed" reason)) id
     = Some b'
     /\ Booking.status b' = Status.completed
     /\ ((0 < deposit)%Q ->
         Booking.depositRefund b'
         = Some (DepositRefund.mk DepositRefund.pending (Some deposit)))
     /\ ((deposit <= 0)%Q ->
         Booking.depositRefund b' = Booking.depositRefund b))
  /\ (exists b',
        Booking_findById
          (fst (updateBookingStatus db env user id "cancelled" reason)) id
        = Some b'
        /\ Booking.status b' = Status.cancelled
        /\ Booking.cancellation b'
           = Some (Cancellation.mk (User.role user) (Env.now env) None reason)).
Proof.
  intros Hf Hacc deposit.
  pose proof (Booking_findById_id db id b Hf) as Hid.
  assert (Hchk : Role.eqb (User.role user) Role.vendor
                 && vendor_denied db user b = false).
  { destruct (User.role user) eqn:E; simpl; try reflexivity.
    apply Hacc. reflexivity. }
  split.
  - unfold updateBookingStatus. rewrite Hf, Hchk.
    change (Status.of_string "completed") with (Some Status.completed).
    cbv zeta. simpl fst. subst deposit.
    change (PriceBreakdown.deposit
              (Booking.priceBreakdown
                 (Booking.set_status Status.completed b)))
      with (PriceBreakdown.deposit (Booking.priceBreakdown b)).
    simpl (Status.eqb _ _). cbv iota.
    destruct (Qltb 0 (PriceBreakdown.deposit (Booking.priceBreakdown b)))
      eqn:E.
    + eexists. split.
      * rewrite (Booking_findById_bookings _ (Booking_save _ db))
          by reflexivity.
        apply (Booking_findById_save db id b); [exact Hf | exact Hid].
      * split; [reflexivity|]. split; [reflexivity|].
        intro Hle. apply Qltb_lt in E. lra.
    + eexists. split.
      * rewrite (Booking_findById_bookings _ (Booking_save _ db))
          by reflexivity.
        apply (Booking_findById_save db id b); [exact Hf | exact Hid].
      * split; [reflexivity|]. split; [|reflexivity].
        intro Hlt. apply Qltb_ge in E. lra.
  - unfold updateBookingStatus. rewrite Hf, Hchk.
    change (Status.of_string "cancelled") with (Some Status.cancelled).
    cbv zeta. simpl fst. simpl (Status.eqb _ _). cbv iota.
    eexists. split.
    + rewrite (Booking_findById_bookings _ (Booking_save _ db))
        by reflexivity.
      apply (Booking_findById_save db id b); [exact Hf | exact Hid].
    + split; reflexivity.
Qed.

(** The administrator sets the confirmed reservation B1, whose deposit is
    500, to completed and to cancelled. *)
Lemma X15_witness :
  (exists b',
     Booking_findById
       (fst (updateBookingStatus db_confirmed env0 admin_U0 "B1" "completed"
               None)) "B1" = Some b'
     /\ Booking.status b' = Status.completed
     /\ Booking.depositRefund b'
        = Some (DepositRefund.mk DepositRefund.pending (Some 500%Q)))
  /\ (exists b',
        Booking_findById
          (fst (updateBookingStatus db_confirmed env0 admin_U0 "B1"
                  "cancelled" None)) "B1" = Some b'
        /\ Booking.status b' = Status.cancelled
        /\ Booking.cancellation b'
           = Some (Cancellation.mk Role.admin (Env.now env0) None None)).
Proof.
  assert (Hacc : User.role admin_U0 = Role.vendor ->
                 vendor_denied db_confirmed admin_U0
                   (booking_V1 "B1" (hours 100) (hours 172) Status.confirmed)
                 = false) by (intro H; discriminate H).
  destruct (X15_updateBookingStatus_side_records db_confirmed env0 admin_U0
              "B1" None
              (booking_V1 "B1" (hours 100) (hours 172) Status.confirmed)
              eq_refl Hacc)
    as [[b1 [H1 [H2 [H3 _]]]] Hc].
  split; [|exact Hc].
  exists b1. split; [exact H1|]. split; [exact H2|].
  apply H3. reflexivity.
Defined.

(** ** Vehicle availability endpoints *)

Lemma Vehicle_findById_id (db : Db.t) (id : Id) (v : Vehicle.t) :
  Vehicle_findById db id = Some v -> Vehicle._id v = id.
Proof.
  unfold Vehicle_findById. intro H. apply find_some in H.
  apply String.eqb_eq. apply H.
Qed.

(** X16: the two availability endpoints agree.  For a stored vehicle and a
    window, [POST /bookings/check-availability] and
    [GET /vehicles/:id/availability] report the same verdict with the same
    message. *)
Theorem X16_availability_endpoints_agree (db : Db.t) (id : Id) (s e : Date)
    (v : Vehicle.t) :
  Vehicle_findById db id = Some v ->
  truthy (Some id) = true ->
  exists available message,
    getBookingAvailability db
      (AvailabilityRequest.mk (Some id) (Some s) (Some e))
    = Response.mk 200 true message (AvailabilityData available)
    /\ getVehicleAvailability db id (Some s) (Some e)
       = Reply.mk 200 true message
           (Some (VehicleAvailability.mk available
                    (Vehicle.availabilityBlocks v))).
Proof.
  intros Hf Ht.
  unfold getBookingAvailability, getVehicleAvailability.
  cbn [AvailabilityRequest.vehicleId AvailabilityRequest.pickupDateTime
       AvailabilityRequest.dropoffDateTime].
  rewrite Ht, Hf. simpl negb. cbv iota. cbv zeta.
  rewrite (Vehicle_findById_id db id v Hf).
  do 2 eexists. split; reflexivity.
Qed.

Lemma X16_witness :
  exists available message,
    getBookingAvailability db_blackout
      (AvailabilityRequest.mk (Some "V2") (Some (hours 12)) (Some (hours 14)))
    = Response.mk 200 true message (AvailabilityData available)
    /\ getVehicleAvailability db_blackout "V2" (Some (hours 12))
         (Some (hours 14))
       = Reply.mk 200 true message
           (Some (VehicleAvailability.mk available
                    (Vehicle.availabilityBlocks vehicle_V2))).
Proof.
  apply (X16_availability_endpoints_agree db_blackout "V2" (hours 12)
           (hours 14) vehicle_V2); reflexivity.
Defined.

Lemma Vehicle_findById_save (db : Db.t) (id : Id) (v0 v : Vehicle.t) :
  Vehicle_findById db id = Some v0 ->
  Vehicle._id v = id ->
  Vehicle_findById (Vehicle_save v db) id = Some v.
Proof.
  unfold Vehicle_findById, Vehicle_save. simpl.
  intros Hfind Hid. subst id.
  induction (Db.vehicles db) as [|x l IH]; simpl in *; [discriminate|].
  destruct (String.eqb (Vehicle._id x) (Vehicle._id v)) eqn:E.
  - rewrite String.eqb_refl. reflexivity.
  - rewrite E. apply IH. exact Hfind.
Qed.

Lemma Vehicle_findById_save_other (db : Db.t) (v : Vehicle.t) (id' : Id) :
  id' <> Vehicle._id v ->
  Vehicle_findById (Vehicle_save v db) id' = Vehicle_findById db id'.
Proof.
  unfold Vehicle_findById, Vehicle_save. simpl. intro Hne.
  induction (Db.vehicles db) as [|x l IH]; simpl; [reflexivity|].
  destruct (String.eqb (Vehicle._id x) (Vehicle._id v)) eqn:E.
  - apply String.eqb_eq in E.
    assert (E1 : String.eqb (Vehicle._id v) id' = false).
    { apply String.eqb_neq. congruence. }
    assert (E2 : String.eqb (Vehicle._id x) id' = false).
    { apply String.eqb_neq. congruence. }
    rewrite E1, E2. exact IH.
  - destruct (String.eqb (Vehicle._id x) id'); [reflexivity | exact IH].
Qed.

(** X17: blackout blocks written by the vendor are the blocks the
    availability endpoint reads.  After the owning vendor has replaced the
    blocks of a vehicle, the endpoint lists exactly the new blocks and
    reports a window available exactly when no blocking reservation
    overlaps it and none of the new blocks meets it; bookings and the other
    vehicles are untouched. *)
Theorem X17_blocks_round_trip (db : Db.t) (user : User.t) (id : Id)
    (blocks : list AvailabilityBlock.t) (vendor : VendorProfile.t)
    (v : Vehicle.t) (s e : Date) :
  Vendor_findOne_user db (User._id user) = Some vendor ->
  Vehicle_findOne_owned db id (VendorProfile._id vendor) = Some v ->
  Vehicle_findById db id = Some v ->
  let db' := fst (updateVehicleAvailability db user id (Some blocks)) in
  snd (updateVehicleAvailability db user id (Some blocks))
  = Reply.mk 200 true "Vehicle availability updated successfully"
      (Some blocks)
  /\ Db.bookings db' = Db.bookings db
  /\ (forall id', id' <> id ->
                  Vehicle_findById db' id' = Vehicle_findById db id')
  /\ exists available message,
       getVehicleAvailability db' id (Some s) (Some e)
       = Reply.mk 200 true message
           (Some (VehicleAvailability.mk available blocks))
       /\ (available = true
           <-> isVehicleAvailable db id s e = true
               /\ forall k, In k blocks -> ~ blocks_window k s e).
Proof.
  intros Hvendor Howned Hfind db'.
  pose proof (Vehicle_findById_id db id v Hfind) as Hid.
  unfold db', updateVehicleAvailability. rewrite Hvendor, Howned.
  cbv zeta. simpl fst. simpl snd.
  set (v' := Vehicle_set_availabilityBlocks blocks v).
  split; [reflexivity|]. split; [reflexivity|].
  split.
  { intros id' Hne. apply Vehicle_findById_save_other.
    simpl. congruence. }
  unfold getVehicleAvailability.
  rewrite (Vehicle_findById_save db id v v' Hfind Hid). cbv zeta.
  do 2 eexists. split; [reflexivity|].
  rewrite andb_true_iff, negb_true_iff.
  rewrite (hasAvailabilityBlock_false_iff v' s e).
  change (Vehicle._id v') with (Vehicle._id v). rewrite Hid.
  rewrite (isVehicleAvailable_bookings db (Vehicle_save v' db))
    by reflexivity.
  reflexivity.
Qed.

(** Vendor U9 blocks vehicle V1 from hour 20 to hour 30: a window that
    ends at hour 20 is then unavailable. *)
Lemma X17_witness :
  exists message,
    getVehicleAvailability
      (fst (updateVehicleAvailability db_two_vendors vendor_U9 "V1"
              (Some [AvailabilityBlock.mk (hours 20) (hours 30) "service"])))
      "V1" (Some (hours 10)) (Some (hours 20))
    = Reply.mk 200 true message
        (Some (VehicleAvailability.mk false
                 [AvailabilityBlock.mk (hours 20) (hours 30) "service"])).
Proof.
  destruct (X17_blocks_round_trip db_two_vendors vendor_U9 "V1"
              [AvailabilityBlock.mk (hours 20) (hours 30) "service"]
              (VendorProfile.mk "N1" "U9") vehicle_V1 (hours 10) (hours 20)
              eq_refl eq_refl eq_refl)
    as [_ [_ [_ [available [message [Hr Hiff]]]]]].
  exists message. rewrite Hr.
  destruct available; [|reflexivity].
  exfalso. destruct (proj1 Hiff eq_refl) as [_ Hnone].
  apply (Hnone (AvailabilityBlock.mk (hours 20) (hours 30) "service")).
  - left. reflexivity.
  - unfold blocks_window. simpl. vm_compute. split; discriminate.
Defined.

(** X18: a vendor cannot rewrite another vendor's calendar.  When no
    vehicle with the given identifier belongs to the caller's vendor
    profile, or the caller has no vendor profile, the update is answered
    404 and nothing is stored. *)
Theorem X18_blocks_update_needs_ownership (db : Db.t) (user : User.t)
    (id : Id) (blocks : option (list AvailabilityBlock.t)) :
  (Vendor_findOne_user db (User._id user) = None
   \/ exists vendor,
        Vendor_findOne_user db (User._id user) = Some vendor
        /\ forall v, In v (Db.vehicles db) -> Vehicle._id v = id ->
                     Vehicle.vendor v <> VendorProfile._id vendor) ->
  fst (updateVehicleAvailability db user id blocks) = db
  /\ Reply.statusCode (snd (updateVehicleAvailability db user id blocks))
     = 404.
Proof.
  intros [Hnone | [vendor [Hvendor Hforeign]]];
    unfold updateVehicleAvailability.
  - rewrite Hnone. split; reflexivity.
  - rewrite Hvendor.
    destruct (Vehicle_findOne_owned db id (VendorProfile._id vendor))
      as [v|] eqn:Ho; [|split; reflexivity].
    exfalso. unfold Vehicle_findOne_owned in Ho.
    apply find_some in Ho. destruct Ho as [Hin Hv].
    apply andb_true_iff in Hv. destruct Hv as [Hv1 Hv2].
    apply String.eqb_eq in Hv1. apply String.eqb_eq in Hv2.
    exact (Hforeign v Hin Hv1 Hv2).
Qed.

Lemma X18_witness :
  fst (updateVehicleAvailability db_two_vendors vendor_U8 "V1" (Some []))
  = db_two_vendors
  /\ Reply.statusCode
       (snd (updateVehicleAvailability db_two_vendors vendor_U8 "V1"
               (Some []))) = 404.
Proof.
  apply (X18_blocks_update_needs_ownership db_two_vendors vendor_U8 "V1"
           (Some [])).
  right. exists (VendorProfile.mk "N2" "U8"). split; [reflexivity|].
  intros v [Hv | [Hv | []]] _; subst v; discriminate.
Defined.

(** ** E-mail verification by one-time password *)


Lemma User_findOne_email_email (users : list Account.t) (email : string)
    (u : Account.t) :
  User_findOne_email users email = Some u ->
  Account.email u = User_email_setters email.
Proof.
  unfold User_findOne_email. intro H. apply find_some in H.
  apply String.eqb_eq. apply H.
Qed.

Lemma User_findOne_email_save (users : list Account.t) (email : string)
    (u0 u : Account.t) :
  User_findOne_email users email = Some u0 ->
  Account.email u = User_email_setters email ->
  User_findOne_email (Account_save u users) email = Some u.
Proof.
  unfold User_findOne_email, Account_save. intros Hfind He.
  rewrite <- He in *. clear He.
  induction users as [|x l IH]; simpl in *; [discriminate|].
  destruct (String.eqb (Account.email x) (Account.email u)) eqn:E.
  - rewrite String.eqb_refl. reflexivity.
  - rewrite E. apply IH. exact Hfind.
Qed.

(** X19: the one-time password is a six-digit number.  For every value of
    [Math.random()] in [0, 1) the generated code is the decimal spelling of
    an integer from 100000 to 999999; it is stored with an expiry ten
    minutes ahead and the time of sending. *)
Theorem X19_otp_is_a_six_digit_number (now : Date) (random : Q)
    (u : Account.t) :
  (0 <= random)%Q -> (random < 1)%Q ->
  exists n,
    100000 <= n <= 999999
    /\ snd (generateEmailOtp now random u) = Number_toString n
    /\ Account.emailVerification (fst (generateEmailOtp now random u))
       = EmailVerification.mk (Some (Number_toString n)) (Some (now + 600000))
           (EmailVerification.isVerified (Account.emailVerification u))
           (Some now).
Proof.
  intros H0 H1.
  exists (Qfloor (100000 + random * 900000)%Q).
  split; [|split; reflexivity].
  split.
  - assert (H : (inject_Z 100000 <= 100000 + random * 900000)%Q).
    { change (inject_Z 100000) with (100000%Q). lra. }
    apply Qfloor_resp_le in H. rewrite Qfloor_Z in H. exact H.
  - assert (Hlt : Qfloor (100000 + random * 900000)%Q < 1000000).
    { rewrite Zlt_Qlt.
      apply Qle_lt_trans with (y := (100000 + random * 900000)%Q).
      - apply Qfloor_le.
      - change (inject_Z 1000000) with (1000000%Q). lra. }
    lia.
Qed.

Lemma X19_witness :
  exists n,
    100000 <= n <= 999999
    /\ snd (generateEmailOtp (hours 1) (1 # 3)
              (Account.mk "a@b.c" "Asha"
                 (EmailVerification.mk None None false None)))
       = Number_toString n.
Proof.
  destruct (X19_otp_is_a_six_digit_number (hours 1) (1 # 3)
              (Account.mk "a@b.c" "Asha"
                 (EmailVerification.mk None None false None)))
    as [n [Hn [Hs _]]]; [discriminate | reflexivity |].
  exists n. split; [exact Hn | exact Hs].
Defined.

(** The lookup of a user ignores letter case and the white space around
    the address. *)
Example user_lookup_is_normalised :
  User_findOne_email [account_asha] "ASHA@Example.com " = Some account_asha.
Proof. reflexivity. Qed.

(** X20: when a code is accepted.  For an address of ASCII characters,
    [verifyOtp] succeeds exactly when the collection holds a user whose
    stored address is the given one in lower case and without the white
    space around it, that user (the first such) has a non-empty code
    stored, the stored expiry is not in the past, and the entered string is
    the stored code; a failed verification changes nothing. *)
Theorem X20_when_a_code_is_accepted (users : list Account.t) (now : Date)
    (email enteredOtp : string) :
  ascii_only email = true ->
  let result := verifyOtp users now email enteredOtp in
  ((exists r, snd result = Returns r /\ OtpResult.success r = true)
   <-> exists u otp,
         find (fun x => String.eqb (Account.email x)
                          (trim (toLowerCase email))) users = Some u
         /\ EmailVerification.otp (Account.emailVerification u) = Some otp
         /\ otp <> ""
         /\ (forall expiresAt,
               EmailVerification.expiresAt (Account.emailVerification u)
               = Some expiresAt -> now <= expiresAt)
         /\ enteredOtp = otp)
  /\ ((forall r, snd result = Returns r -> OtpResult.success r = false) ->
      fst result = users).
Proof.
  intros _ result. unfold result, verifyOtp.
  change (find (fun x => String.eqb (Account.email x)
                           (trim (toLowerCase email))) users)
    with (User_findOne_email users email).
  destruct (User_findOne_email users email) as [u|] eqn:Hf.
  2:{ split.
      - split.
        + intros [r [H _]]. discriminate.
        + intros [u [otp [H _]]]. discriminate.
      - reflexivity. }
  unfold verifyEmailOtp.
  destruct (EmailVerification.otp (Account.emailVerification u))
    as [otp|] eqn:Hotp.
  2:{ split; [|reflexivity]. split.
      - intros [r [H Hs]]. injection H as H. subst r. discriminate.
      - intros [u' [otp' [Hu [Ho _]]]]. injection Hu as Hu. subst u'.
        congruence. }
  destruct otp as [|c otp'].
  { split; [|reflexivity]. split.
    - intros [r [H Hs]]. injection H as H. subst r. discriminate.
    - intros [u' [o [Hu [Ho [Hne _]]]]]. injection Hu as Hu. subst u'.
      rewrite Hotp in Ho. injection Ho as Ho. subst o. contradiction. }
  set (otp := String c otp') in *.
  destruct (match EmailVerification.expiresAt (Account.emailVerification u)
            with Some expiresAt => expiresAt <? now | None => false end)
    eqn:Hexp.
  { split; [|reflexivity]. split.
    - intros [r [H Hs]]. injection H as H. subst r. discriminate.
    - intros [u' [o [Hu [_ [_ [Hle _]]]]]]. injection Hu as Hu. subst u'.
      destruct (EmailVerification.expiresAt (Account.emailVerification u))
        as [x|]; [|discriminate].
      apply Z.ltb_lt in Hexp. specialize (Hle x eq_refl). lia. }
  destruct (String.eqb enteredOtp otp) eqn:Heq; simpl negb; cbv iota.
  - simpl. split.
    + split; [|intros _; eexists; split; reflexivity].
      intros _. exists u, otp. split; [reflexivity|].
      split; [exact Hotp|]. split; [discriminate|].
      split.
      * intros x Hx. rewrite Hx in Hexp. apply Z.ltb_ge in Hexp. exact Hexp.
      * apply String.eqb_eq. exact Heq.
    + intro Hall. specialize (Hall _ eq_refl). discriminate.
  - simpl. split; [|reflexivity]. split.
    + intros [r [H Hs]]. injection H as H. subst r. discriminate.
    + intros [u' [o [Hu [Ho [_ [_ He]]]]]]. injection Hu as Hu. subst u'.
      rewrite Hotp in Ho. injection Ho as Ho. subst o.
      apply String.eqb_neq in Heq. contradiction.
Qed.

(** The code sent to asha@example.com is accepted for the spelling
    [" Asha@Example.COM"] of the address. *)
Lemma X20_witness :
  exists r,
    snd (verifyOtp users_sent (hours 1 + 5000) " Asha@Example.COM" "400000")
    = Returns r
    /\ OtpResult.success r = true.
Proof.
  apply (proj1 (X20_when_a_code_is_accepted users_sent (hours 1 + 5000)
                  " Asha@Example.COM" "400000" eq_refl)).
  exists (fst (generateEmailOtp (hours 1) (1 # 3) account_asha)), "400000".
  split; [reflexivity|]. split; [reflexivity|]. split; [discriminate|].
  split; [|reflexivity].
  intros expiresAt H. injection H as H. subst expiresAt.
  vm_compute. discriminate.
Defined.

Lemma generateAndSendOtp_after_cooldown (users : list Account.t) (now : Date)
    (random : Q) (mail_delivered : bool) (email : string) (u : Account.t) :
  User_findOne_email users email = Some u ->
  cooled_down u now ->
  generateAndSendOtp users now random mail_delivered email
  = (Account_save (fst (generateEmailOtp now random u)) users,
     if mail_delivered
     then Returns (OtpSent.mk true "OTP sent successfully" 60)
     else Throws "Failed to send email").
Proof.
  intros Hf Hcool. unfold generateAndSendOtp. rewrite Hf.
  unfold cooled_down in Hcool.
  destruct (EmailVerification.lastSentAt (Account.emailVerification u))
    as [last|]; [|reflexivity].
  specialize (Hcool last eq_refl).
  replace (0 <? OTP_RESEND_COOLDOWN * 1000 - (now - last)) with false
    by (symmetry; apply Z.ltb_ge; unfold OTP_RESEND_COOLDOWN; lia).
  reflexivity.
Qed.


Lemma cooled_down_asha (now : Date) : cooled_down account_asha now.
Proof. intros last H. discriminate H. Qed.




Lemma generateAndSendOtp_in_cooldown (users : list Account.t) (now : Date)
    (random : Q) (mail_delivered : bool) (email : string) (u : Account.t)
    (last : Date) :
  User_findOne_email users email = Some u ->
  EmailVerification.lastSentAt (Account.emailVerification u) = Some last ->
  last <= now -> now < last + 60000 ->
  exists seconds,
    1 <= seconds <= 60
    /\ 1000 * (seconds - 1) < last + 60000 - now <= 1000 * seconds
    /\ generateAndSendOtp users now random mail_delivered email
       = (users, Throws (wait_message seconds))
    /\ canResendOtp users now email = CanResend.mk false seconds.
Proof.
  intros Hf Hlast Hle Hlt.
  set (remaining := OTP_RESEND_COOLDOWN * 1000 - (now - last)).
  assert (Hrem : remaining = last + 60000 - now)
    by (unfold remaining, OTP_RESEND_COOLDOWN; lia).
  pose proof (Math_ceil_bounds remaining 1000) as Hb.
  exists (Math_ceil (remaining # 1000)).
  assert (Hsec : 1 <= Math_ceil (remaining # 1000) <= 60) by lia.
  split; [exact Hsec|]. split; [lia|]. split.
  - unfold generateAndSendOtp. rewrite Hf, Hlast. fold remaining.
    replace (0 <? remaining) with true by (symmetry; apply Z.ltb_lt; lia).
    reflexivity.
  - unfold canResendOtp. rewrite Hf, Hlast. fold remaining. cbv zeta.
    replace (remaining <=? 0) with false by (symmetry; apply Z.leb_gt; lia).
    rewrite Z.max_r by lia. reflexivity.
Qed.

(** X23: the resend cooldown.  Within 60 seconds of the last code,
    [generateAndSendOtp] stores nothing and throws "Please wait N seconds
    ...", where N, between 1 and 60, is the remaining time rounded up to
    whole seconds, and [canResendOtp] reports the same N with
    [canResend = false]. *)
Theorem X23_resend_cooldown (users : list Account.t) (now : Date)
    (random : Q) (mail_delivered : bool) (email : string) (u : Account.t)
    (last : Date) :
  User_findOne_email users email = Some u ->
  EmailVerification.lastSentAt (Account.emailVerification u) = Some last ->
  last <= now -> now < last + 60000 ->
  exists seconds,
    1 <= seconds <= 60
    /\ 1000 * (seconds - 1) < last + 60000 - now <= 1000 * seconds
    /\ generateAndSendOtp users now random mail_delivered email
       = (users,
          Throws (String.append "Please wait "
                    (String.append (Number_toString seconds)
                       " seconds before requesting a new OTP")))
    /\ canResendOtp users now email = CanResend.mk false seconds.
Proof.
  intros Hf Hlast Hle Hlt.
  exact (generateAndSendOtp_in_cooldown users now random mail_delivered email
           u last Hf Hlast Hle Hlt).
Qed.

(** Twelve and a half seconds after a code was sent, 48 seconds remain. *)
Lemma X23_witness :
  generateAndSendOtp users_sent (hours 1 + 12500) (1 # 2) true
    "asha@example.com"
  = (users_sent,
     Throws "Please wait 48 seconds before requesting a new OTP")
  /\ canResendOtp users_sent (hours 1 + 12500) "asha@example.com"
     = CanResend.mk false 48.
Proof.
  destruct (X23_resend_cooldown users_sent (hours 1 + 12500) (1 # 2) true
              "asha@example.com"
              (fst (generateEmailOtp (hours 1) (1 # 3) account_asha))
              (hours 1) eq_refl eq_refl)
    as [seconds [_ [Hb [Hg Hc]]]]; [discriminate | reflexivity |].
  assert (Hs : seconds = 48).
  { change (hours 1 + 60000 - (hours 1 + 12500)) with 47500 in Hb. lia. }
  subst seconds. split; [exact Hg | exact Hc].
Defined.

(** X24: [canResendOtp] and [generateAndSendOtp] agree.  For a registered
    address, [canResendOtp] answers [canResend = true] exactly when a
    request for a new code at that moment stores a fresh code and goes on
    to the mail, and [canResend = false] exactly when the request is
    refused with the wait message. *)
Theorem X24_canResendOtp_agrees (users : list Account.t) (now : Date)
    (random : Q) (mail_delivered : bool) (email : string) (u : Account.t) :
  User_findOne_email users email = Some u ->
  (CanResend.canResend (canResendOtp users now email) = true
   <-> generateAndSendOtp users now random mail_delivered email
       = (Account_save (fst (generateEmailOtp now random u)) users,
          if mail_delivered
          then Returns (OtpSent.mk true "OTP sent successfully" 60)
          else Throws "Failed to send email"))
  /\ (CanResend.canResend (canResendOtp users now email) = false
      <-> exists seconds,
            0 < seconds
            /\ generateAndSendOtp users now random mail_delivered email
               = (users, Throws (wait_message seconds))).
Proof.
  intro Hf. unfold canResendOtp, generateAndSendOtp. rewrite Hf.
  assert (Hdiff : forall (l l' : list Account.t) seconds,
            (l, if mail_delivered
                then Returns (OtpSent.mk true "OTP sent successfully" 60)
                else Throws "Failed to send email")
            = (l', Throws (wait_message seconds)) -> False).
  { intros l l' seconds H. injection H as _ H.
    destruct mail_delivered; [discriminate H|].
    unfold wait_message in H. simpl in H. discriminate H. }
  destruct (EmailVerification.lastSentAt (Account.emailVerification u))
    as [last|].
  - cbv zeta. set (remaining := OTP_RESEND_COOLDOWN * 1000 - (now - last)).
    cbn [CanResend.canResend].
    destruct (0 <? remaining) eqn:E.
    + apply Z.ltb_lt in E.
      replace (remaining <=? 0) with false by (symmetry; apply Z.leb_gt; lia).
      pose proof (Math_ceil_bounds remaining 1000) as Hb.
      split; split.
      * discriminate.
      * intro H. exfalso. symmetry in H. exact (Hdiff _ _ _ H).
      * intros _. exists (Math_ceil (remaining # 1000)).
        split; [lia | reflexivity].
      * reflexivity.
    + apply Z.ltb_ge in E.
      replace (remaining <=? 0) with true by (symmetry; apply Z.leb_le; lia).
      split; split.
      * reflexivity.
      * reflexivity.
      * discriminate.
      * intros [seconds [_ H]]. exfalso. exact (Hdiff _ _ _ H).
  - cbn [CanResend.canResend]. split; split.
    + reflexivity.
    + reflexivity.
    + discriminate.
    + intros [seconds [_ H]]. exfalso. exact (Hdiff _ _ _ H).
Qed.

Lemma X24_witness :
  CanResend.canResend
    (canResendOtp [account_asha] (hours 1) "asha@example.com") = true
  /\ generateAndSendOtp [account_asha] (hours 1) (1 # 3) true
       "asha@example.com"
     = (Account_save (fst (generateEmailOtp (hours 1) (1 # 3) account_asha))
          [account_asha],
        Returns (OtpSent.mk true "OTP sent successfully" 60)).
Proof.
  destruct (X24_canResendOtp_agrees [account_asha] (hours 1) (1 # 3) true
              "asha@example.com" account_asha eq_refl) as [Hyes _].
  split; [reflexivity|]. apply Hyes. reflexivity.
Defined.

(** X25: a mail that cannot be sent still costs the cooldown.  When
    [sendEmail] fails, [generateAndSendOtp] throws "Failed to send email",
    yet the new code and the time of sending are already stored, so a
    retry within the next 60 seconds is refused with the wait message. *)
Theorem X25_failed_mail_starts_the_cooldown (users : list Account.t)
    (now now2 : Date) (random random2 : Q) (mail2 : bool) (email : string)
    (u : Account.t) :
  User_findOne_email users email = Some u ->
  cooled_down u now ->
  let failed := generateAndSendOtp users now random false email in
  snd failed = Throws "Failed to send email"
  /\ (exists u1,
        User_findOne_email (fst failed) email = Some u1
        /\ EmailVerification.otp (Account.emailVerification u1)
           = Some (snd (generateEmailOtp now random u))
        /\ EmailVerification.lastSentAt (Account.emailVerification u1)
           = Some now)
  /\ (now <= now2 -> now2 < now + 60000 ->
      exists seconds,
        1 <= seconds <= 60
        /\ generateAndSendOtp (fst failed) now2 random2 mail2 email
           = (fst failed, Throws (wait_message seconds))).
Proof.
  intros Hf Hcool failed.
  pose proof (User_findOne_email_email users email u Hf) as He.
  unfold failed.
  rewrite (generateAndSendOtp_after_cooldown users now random false email u
             Hf Hcool).
  cbn [fst snd].
  set (u1 := fst (generateEmailOtp now random u)).
  assert (Hf1 : User_findOne_email (Account_save u1 users) email = Some u1).
  { apply (User_findOne_email_save users email u); [exact Hf | exact He]. }
  split; [reflexivity|]. split.
  - exists u1. split; [exact Hf1|]. split; reflexivity.
  - intros Hle Hlt.
    destruct (generateAndSendOtp_in_cooldown (Account_save u1 users) now2
                random2 mail2 email u1 now Hf1 eq_refl Hle Hlt)
      as [seconds [Hs [_ [Hg _]]]].
    exists seconds. split; [exact Hs | exact Hg].
Qed.

Lemma X25_witness :
  let failed :=
    generateAndSendOtp [account_asha] (hours 1) (1 # 3) false
      "asha@example.com" in
  snd failed = Throws "Failed to send email"
  /\ (exists u1,
        User_findOne_email (fst failed) "asha@example.com" = Some u1
        /\ EmailVerification.otp (Account.emailVerification u1)
           = Some (snd (generateEmailOtp (hours 1) (1 # 3) account_asha))
        /\ EmailVerification.lastSentAt (Account.emailVerification u1)
           = Some (hours 1))
  /\ (hours 1 <= hours 1 + 1000 -> hours 1 + 1000 < hours 1 + 60000 ->
      exists seconds,
        1 <= seconds <= 60
        /\ generateAndSendOtp (fst failed) (hours 1 + 1000) (1 # 2) true
             "asha@example.com"
           = (fst failed, Throws (wait_message seconds))).
Proof.
  apply (X25_failed_mail_starts_the_cooldown [account_asha] (hours 1)
           (hours 1 + 1000) (1 # 3) (1 # 2) true "asha@example.com"
           account_asha eq_refl (cooled_down_asha (hours 1))).
Defined.

(** ** The reservations a handler may rewrite *)

Lemma same_reservation_refl (x : Booking.t) : same_reservation x x.
Proof. unfold same_reservation. repeat split. Qed.

Lemma unique_ids_inj (l : list Booking.t) (x y : Booking.t) :
  NoDup (map Booking._id l) -> In x l -> In y l ->
  Booking._id x = Booking._id y -> x = y.
Proof.
  induction l as [|a l IH]; simpl; [contradiction|].
  intros Hnd Hx Hy Hid. inversion Hnd as [|? ? Hnotin Hnd']; subst.
  destruct Hx as [Hx | Hx]; destruct Hy as [Hy | Hy].
  - congruence.
  - subst a. exfalso. apply Hnotin. rewrite Hid.
    apply in_map. exact Hy.
  - subst a. exfalso. apply Hnotin. rewrite <- Hid.
    apply in_map. exact Hx.
  - apply IH; assumption.
Qed.

Lemma Forall2_map_self {A : Type} (R : A -> A -> Prop) (f : A -> A)
    (l : list A) :
  (forall x, In x l -> R x (f x)) -> Forall2 R l (map f l).
Proof.
  induction l as [|a l IH]; simpl; intro H; constructor.
  - apply H. left. reflexivity.
  - apply IH. intros x Hx. apply H. right. exact Hx.
Qed.

Lemma same_reservations_ids (l l' : list Booking.t) :
  Forall2 same_reservation l l' -> map Booking._id l' = map Booking._id l.
Proof.
  induction 1 as [|x y l l' Hxy _ IH]; simpl; [reflexivity|].
  destruct Hxy as [Hid _]. rewrite Hid, IH. reflexivity.
Qed.

Lemma Booking_save_same_reservations (db : Db.t) (id : Id)
    (b b2 : Booking.t) :
  unique_ids db ->
  Booking_findById db id = Some b ->
  same_reservation b b2 ->
  same_reservations db (Booking_save b2 db).
Proof.
  intros Hu Hf Hsame. unfold same_reservations, Booking_save. simpl.
  apply Forall2_map_self. intros x Hin.
  destruct (String.eqb (Booking._id x) (Booking._id b2)) eqn:E;
    [|apply same_reservation_refl].
  apply String.eqb_eq in E.
  assert (Hxb : x = b).
  { apply (unique_ids_inj (Db.bookings db)); try assumption.
    - exact (Booking_findById_In db id b Hf).
    - destruct Hsame as [Hid _]. congruence. }
  subst x. exact Hsame.
Qed.

Lemma same_reservations_refl (db : Db.t) : same_reservations db db.
Proof.
  unfold same_reservations.
  induction (Db.bookings db); constructor;
    [apply same_reservation_refl | assumption].
Qed.

Lemma same_reservations_bookings (db d1 d2 : Db.t) :
  Db.bookings d1 = Db.bookings d2 ->
  same_reservations db d2 -> same_reservations db d1.
Proof. unfold same_reservations. intros E H. rewrite E. exact H. Qed.

Lemma updateBookingStatus_rewrites (db : Db.t) (env : Env.t) (user : User.t)
    (id : Id) (status : string) (reason : option string) :
  fst (updateBookingStatus db env user id status reason) = db
  \/ exists b b2,
       Booking_findById db id = Some b
       /\ same_reservation b b2
       /\ Db.bookings (fst (updateBookingStatus db env user id status reason))
          = Db.bookings (Booking_save b2 db).
Proof.
  unfold updateBookingStatus.
  destruct (Booking_findById db id) as [b|] eqn:Hf; [|left; reflexivity].
  destruct (_ && _); [left; reflexivity|].
  destruct (Status.of_string status) as [s|]; [|left; reflexivity].
  right. cbv zeta. exists b. eexists. split; [reflexivity|].
  split; [|reflexivity].
  destruct (Status.eqb s Status.cancelled);
    [unfold same_reservation; repeat split|].
  destruct (Status.eqb s Status.completed);
    [|unfold same_reservation; repeat split].
  destruct (Qltb 0 _); unfold same_reservation; repeat split.
Qed.

(** X26: no handler moves, reprices or reassigns a reservation.  In a
    collection with unique identifiers, [updateBookingStatus],
    [cancelBooking], [completeBooking] and the booking update of
    [verifyPayment] leave the collection with the same reservations in the
    same order: none is added or removed, and each keeps its identifier,
    reference, customer, vendor, vehicle, driver, window, duration, price
    breakdown, payment and promotion; identifiers stay unique. *)
Theorem X26_handlers_keep_the_reservations (db : Db.t) (env : Env.t)
    (user : User.t) (id : Id) :
  unique_ids db ->
  (forall status reason,
     let db' := fst (updateBookingStatus db env user id status reason) in
     same_reservations db db' /\ unique_ids db')
  /\ (forall reason,
        let db' := fst (cancelBooking db env user id reason) in
        same_reservations db db' /\ unique_ids db')
  /\ (forall penalties notes,
        let db' := fst (completeBooking db env user id penalties notes) in
        same_reservations db db' /\ unique_ids db')
  /\ (forall payment,
        let db' := verifyPayment_updateBooking db payment in
        same_reservations db db' /\ unique_ids db').
Proof.
  intro Hu.
  assert (Hkeep : forall db', same_reservations db db' ->
            same_reservations db db' /\ unique_ids db').
  { intros db' H. split; [exact H|].
    unfold unique_ids. rewrite (same_reservations_ids _ _ H). exact Hu. }
  split; [|split; [|split]].
  - intros status reason db'. apply Hkeep. unfold db'.
    destruct (updateBookingStatus_rewrites db env user id status reason)
      as [E | [b [b2 [Hf [Hsame E]]]]].
    + rewrite E. apply same_reservations_refl.
    + apply (same_reservations_bookings db _ _ E).
      apply (Booking_save_same_reservations db id b b2 Hu Hf Hsame).
  - intros reason db'. apply Hkeep. unfold db'.
    destruct (cancelBooking_bookings db env user id reason)
      as [E | [b [c [Hf [_ [_ E]]]]]].
    + rewrite E. apply same_reservations_refl.
    + apply (same_reservations_bookings db _ _ E).
      apply (Booking_save_same_reservations db id b _ Hu Hf).
      unfold same_reservation. repeat split.
  - intros penalties notes db'. apply Hkeep. unfold db'.
    destruct (completeBooking_bookings db env user id penalties notes)
      as [E | [b [p [Hf [_ [_ E]]]]]].
    + rewrite E. apply same_reservations_refl.
    + apply (same_reservations_bookings db _ _ E).
      apply (Booking_save_same_reservations db id b _ Hu Hf).
      unfold same_reservation. repeat split.
  - intros payment db'. apply Hkeep. unfold db', verifyPayment_updateBooking.
    destruct (Booking_findById db (Payment.booking payment)) as [b|] eqn:Hf.
    + destruct (Payment.status payment);
        (eapply same_reservations_bookings; [reflexivity|]);
        apply (Booking_save_same_reservations db (Payment.booking payment) b
                 _ Hu Hf);
        unfold same_reservation; repeat split.
    + destruct (Payment.status payment); apply same_reservations_refl.
Qed.

Lemma unique_ids_db_two : unique_ids db_two.
Proof.
  unfold unique_ids. simpl. repeat constructor; simpl; intuition discriminate.
Qed.

Lemma X26_witness :
  let db' := fst (cancelBooking db_two env0 customer_U1 "B1" None) in
  same_reservations db_two db' /\ unique_ids db'.
Proof.
  destruct (X26_handlers_keep_the_reservations db_two env0 customer_U1 "B1"
              unique_ids_db_two) as [_ [Hcancel _]].
  exact (Hcancel None).
Defined.

(** ** Payment orders *)

Lemma createPaymentOrder_cases (st : Ledger.t) (newId : Id) (user : User.t)
    (bookingId : option Id) (amount : option Q) (currency : string)
    (gateway : GatewayOrder) :
  let r := createPaymentOrder st newId user bookingId amount currency gateway in
  (fst r = st /\ Reply.success (snd r) = false)
  \/ exists id a booking orderId vendor,
       bookingId = Some id /\ amount = Some a
       /\ ~ (a == 0)%Q
       /\ Booking_findOne_of_customer (Ledger.db st) id (User._id user)
          = Some booking
       /\ Payment_findOne_booking (Ledger.payments st) id = None
       /\ (Qabs (a - PriceBreakdown.totalPayable (Booking.priceBreakdown booking))
           <= 1)%Q
       /\ gateway = OrderCreated orderId
       /\ r = (Ledger.mk
                 (Booking_save (Booking_set_payment newId booking)
                    (Ledger.db st))
                 (Ledger.payments st
                  ++ [PaymentDoc.mk newId id (User._id user)
                        (VendorProfile._id vendor) a currency (Some orderId)
                        None Payment.initiated (RefundDetails.mk 0 None None)]),
               Reply.mk 200 true "Payment order created successfully"
                 (Some (PaymentOrder.mk orderId newId a currency))).
Proof.
  intro r. unfold r, createPaymentOrder.
  destruct bookingId as [id|]; [|left; split; reflexivity].
  destruct amount as [a|]; [|left; split; reflexivity].
  destruct (negb (truthy (Some id))) eqn:Ht; [left; split; reflexivity|].
  destruct (Qeq_bool a 0) eqn:Hz; [left; split; reflexivity|].
  simpl orb. cbv iota.
  destruct (Booking_findOne_of_customer (Ledger.db st) id (User._id user))
    as [booking|] eqn:Hb; [|left; split; reflexivity].
  destruct (Payment_findOne_booking (Ledger.payments st) id) eqn:Hp;
    [left; split; reflexivity|].
  cbv zeta.
  destruct (differs_by_more_than_one a _) eqn:Hd; [left; split; reflexivity|].
  destruct gateway as [orderId | error]; [|left; split; reflexivity].
  destruct (Vendor_findById (Ledger.db st) (Booking.vendor booking))
    as [vendor|]; [|left; split; reflexivity].
  destruct (existsb _ (Ledger.payments st)); [left; split; reflexivity|].
  right. exists id, a, booking, orderId, vendor.
  split; [reflexivity|]. split; [reflexivity|].
  split.
  { intro H. apply Qeq_bool_iff in H. congruence. }
  split; [exact Hb|]. split; [exact Hp|].
  split; [|split; reflexivity].
  unfold differs_by_more_than_one in Hd. apply Qltb_ge in Hd. exact Hd.
Qed.

(** X27: a payment order is created only for the right customer and the
    right amount.  Whenever [createPaymentOrder] succeeds, the booking
    belongs to the caller, it had no payment of any status, the amount is
    within 1 of the booking's total payable, and exactly one payment, in
    status initiated and for the requested amount, is added; whenever it
    fails, nothing is stored. *)
Theorem X27_payment_order_safety (st : Ledger.t) (newId : Id) (user : User.t)
    (bookingId : option Id) (amount : option Q) (currency : string)
    (gateway : GatewayOrder) :
  let r := createPaymentOrder st newId user bookingId amount currency gateway in
  (Reply.success (snd r) = true ->
   exists id a booking payment,
     bookingId = Some id /\ amount = Some a
     /\ In booking (Db.bookings (Ledger.db st))
     /\ Booking._id booking = id
     /\ Booking.customer booking = User._id user
     /\ (forall p, In p (Ledger.payments st) -> PaymentDoc.booking p <> id)
     /\ (Qabs (a - PriceBreakdown.totalPayable (Booking.priceBreakdown booking))
         <= 1)%Q
     /\ Ledger.payments (fst r) = (Ledger.payments st ++ [payment])%list
     /\ PaymentDoc.booking payment = id
     /\ PaymentDoc.user payment = User._id user
     /\ PaymentDoc.amount payment = a
     /\ PaymentDoc.status payment = Payment.initiated)
  /\ (Reply.success (snd r) = false -> fst r = st).
Proof.
  intro r. subst r.
  destruct (createPaymentOrder_cases st newId user bookingId amount currency
              gateway)
    as [[Hst Hfail] | [id [a [booking [orderId [vendor
         [Hid [Ha [Hnz [Hb [Hp [Habs [Hg Hr]]]]]]]]]]]]].
  - split; [|intros _; exact Hst].
    intro H. rewrite Hfail in H. discriminate.
  - split.
    + intros _. exists id, a, booking. eexists.
      split; [exact Hid|]. split; [exact Ha|].
      unfold Booking_findOne_of_customer in Hb. apply find_some in Hb.
      destruct Hb as [Hin Hb]. apply andb_true_iff in Hb.
      destruct Hb as [Hb1 Hb2].
      apply String.eqb_eq in Hb1. apply String.eqb_eq in Hb2.
      split; [exact Hin|]. split; [exact Hb1|]. split; [exact Hb2|].
      split.
      { intros p Hpin Heq. unfold Payment_findOne_booking in Hp.
        pose proof (find_none _ _ Hp p Hpin) as Hnone. simpl in Hnone.
        apply String.eqb_neq in Hnone. contradiction. }
      split; [exact Habs|].
      rewrite Hr. cbn [fst Ledger.payments].
      split; [reflexivity|]. repeat split.
    + intro H. rewrite Hr in H. discriminate.
Qed.

Lemma X27_witness :
  exists payment,
    Ledger.payments
      (fst (createPaymentOrder ledger_confirmed "PAY1" customer_U1 (Some "B1")
              (Some (4039 # 1)) "INR" (OrderCreated "order_1")))
    = [payment]
    /\ PaymentDoc.booking payment = "B1"
    /\ PaymentDoc.amount payment = 4039 # 1
    /\ PaymentDoc.status payment = Payment.initiated.
Proof.
  destruct (proj1 (X27_payment_order_safety ledger_confirmed "PAY1"
                     customer_U1 (Some "B1") (Some (4039 # 1)) "INR"
                     (OrderCreated "order_1")) eq_refl)
    as [id [a [booking [payment
         [Hid [Ha [_ [_ [_ [_ [_ [Hl [Hb [_ [Hamt Hs]]]]]]]]]]]]]]].
  injection Hid as Hid. injection Ha as Ha. subst id a.
  exists payment. split; [exact Hl|]. split; [exact Hb|].
  split; [exact Hamt | exact Hs].
Defined.
